(** * Incredible weather app: a shallow embedding of [main.py]

    The program reads an API key from [config.json], asks weatherapi.com
    for a 2-day and a 10-day forecast and reshapes the two JSON bodies into
    a current-conditions dict and two data frames, which a Streamlit page
    then renders.

    Python values that come out of [json.load] / [response.json()] are
    modelled by the inductive type [json]; exceptions by the type [exn];
    the effects of the program (HTTP requests issued, Streamlit and Plotly
    calls) by a chronological trace of [event]s.  The file system, the
    network and the sidebar widgets are the [world] the program runs in. *)

From Stdlib Require Import ZArith PeanoNat List String Ascii Bool Lia.
From Stdlib Require Import DecimalString.
From Stdlib Require Import Floats.SpecFloat.
From ExtLib Require Import Structures.Monad.
Import ListNotations.
Import MonadNotation.
Local Open Scope string_scope.
Local Open Scope monad_scope.

Set Warnings "-register-all".

(** ** Python values *)

(** What [json.load] builds: [None], [bool], [int], [float] (binary64),
    [str], [list] and [dict].  A dict is kept as its items in insertion
    order; keys of a parsed dict are pairwise distinct. *)
Inductive json : Type :=
| JNull
| JBool (b : bool)
| JInt (z : Z)
| JFloat (f : spec_float)
| JStr (s : string)
| JArr (xs : list json)
| JObj (items : list (string * json)).

(** The exception classes the program can meet. *)
Inductive exn : Type :=
| FileNotFoundError
| PermissionError          (* any other [OSError] raised by [open] *)
| JSONDecodeError
| RequestException         (* raised by [requests.get] *)
| KeyError (k : json)
| IndexError
| TypeError
| OverflowError
| ValueError               (* raised by a Plotly validator *)
| MediaFileStorageError    (* raised by [st.image] *)
| StopException.           (* raised by [st.stop()] *)

Inductive outcome (A : Type) : Type :=
| Ok (a : A)
| Exc (e : exn).
Arguments Ok {A} a.
Arguments Exc {A} e.

#[global] Instance Monad_outcome : Monad outcome :=
  {| ret := fun A (a : A) => Ok a;
     bind := fun A B (m : outcome A) (f : A -> outcome B) =>
               match m with
               | Ok a => f a
               | Exc e => Exc e
               end |}.

(** ** Strings *)

(** A Python [str] is a sequence of code points; a Rocq [string] holds its
    UTF-8 bytes.  [chars] splits a string into its code points: a byte in
    [0x80, 0xC0) continues the character begun before it. *)
Definition is_continuation (c : ascii) : bool :=
  let n := nat_of_ascii c in (128 <=? n)%nat && (n <? 192)%nat.

Fixpoint chars (s : string) : list string :=
  match s with
  | EmptyString => []
  | String c s' =>
      match s' with
      | EmptyString => [String c EmptyString]
      | String d _ =>
          if is_continuation d then
            match chars s' with
            | r :: rest => String c r :: rest
            | [] => [String c EmptyString]
            end
          else String c EmptyString :: chars s'
      end
  end.

Fixpoint lookup (k : string) (items : list (string * json)) : option json :=
  match items with
  | [] => None
  | (k', v) :: rest => if String.eqb k k' then Some v else lookup k rest
  end.

(** ** Subscripts, iteration, truth value *)

(** [v[k]] for a string key [k]. *)
Definition getitem (v : json) (k : string) : outcome json :=
  match v with
  | JObj items =>
      match lookup k items with
      | Some x => Ok x
      | None => Exc (KeyError (JStr k))
      end
  | _ => Exc TypeError
  end.

(** [v[0]]. *)
Definition getitem0 (v : json) : outcome json :=
  match v with
  | JArr (x :: _) => Ok x
  | JArr [] => Exc IndexError
  | JStr s =>
      match chars s with
      | c :: _ => Ok (JStr c)
      | [] => Exc IndexError
      end
  | JObj _ => Exc (KeyError (JInt 0))
  | _ => Exc TypeError
  end.

(** The elements a [for] loop over [v] visits. *)
Definition iter (v : json) : outcome (list json) :=
  match v with
  | JArr xs => Ok xs
  | JObj items => Ok (map (fun kv => JStr (fst kv)) items)
  | JStr s => Ok (map JStr (chars s))
  | _ => Exc TypeError
  end.

(** [bool(v)]. *)
Definition truthy (v : json) : bool :=
  match v with
  | JNull => false
  | JBool b => b
  | JInt z => negb (z =? 0)%Z
  | JFloat (S754_zero _) => false
  | JFloat _ => true
  | JStr EmptyString => false
  | JStr _ => true
  | JArr [] => false
  | JArr _ => true
  | JObj [] => false
  | JObj _ => true
  end.

(** ** Arithmetic *)

Definition prec : Z := 53.
Definition emax : Z := 1024.

(** [float(z)]: round to nearest even, [OverflowError] beyond the range. *)
Definition float_of_int (z : Z) : outcome spec_float :=
  match binary_normalize prec emax z 0 false with
  | S754_infinity _ => Exc OverflowError
  | f => Ok f
  end.

Inductive number : Type :=
| NInt (z : Z)
| NFloat (f : spec_float).

Definition as_number (v : json) : option number :=
  match v with
  | JBool b => Some (NInt (if b then 1 else 0)%Z)
  | JInt z => Some (NInt z)
  | JFloat f => Some (NFloat f)
  | _ => None
  end.

(** [a - b]. *)
Definition py_sub (a b : json) : outcome json :=
  match as_number a, as_number b with
  | Some (NInt x), Some (NInt y) => Ok (JInt (x - y))
  | Some (NInt x), Some (NFloat g) =>
      f <- float_of_int x ;; ret (JFloat (SFsub prec emax f g))
  | Some (NFloat f), Some (NInt y) =>
      g <- float_of_int y ;; ret (JFloat (SFsub prec emax f g))
  | Some (NFloat f), Some (NFloat g) => Ok (JFloat (SFsub prec emax f g))
  | _, _ => Exc TypeError
  end.

(** [a + b], by which the sum of two chart values is stated. *)
Definition py_add (a b : json) : outcome json :=
  match as_number a, as_number b with
  | Some (NInt x), Some (NInt y) => Ok (JInt (x + y))
  | Some (NInt x), Some (NFloat g) =>
      f <- float_of_int x ;; ret (JFloat (SFadd prec emax f g))
  | Some (NFloat f), Some (NInt y) =>
      g <- float_of_int y ;; ret (JFloat (SFadd prec emax f g))
  | Some (NFloat f), Some (NFloat g) => Ok (JFloat (SFadd prec emax f g))
  | _, _ => Exc TypeError
  end.

(** The float [100.0], which is [100 * 2^46 * 2^-46]. *)
Definition M100 : positive := 7036874417766400.
Definition f100 : spec_float := S754_finite false M100 (-46).

(** [0 <= v <= 100] for a number [v]: an int or a bool in the interval, or
    a binary64 float that compares so with [0.0] and [100.0] (a nan does
    not). *)
Definition in_0_100 (v : json) : bool :=
  match as_number v with
  | Some (NInt z) => ((0 <=? z) && (z <=? 100))%Z
  | Some (NFloat f) =>
      valid_binary prec emax f
      && SFleb (S754_zero false) f
      && SFleb f f100
  | None => false
  end.

(** [v == 100]. *)
Definition equals_100 (v : json) : bool :=
  match as_number v with
  | Some (NInt z) => (z =? 100)%Z
  | Some (NFloat f) => SFeqb f f100
  | None => false
  end.

(** [z / 2^n] rounded to the nearest integer, ties to even: the rounding of
    binary64 arithmetic on a mantissa that has [n] digits too many. *)
Definition rne (z n : Z) : Z :=
  (let q := z / 2 ^ n in
   match 2 * (z mod 2 ^ n) ?= 2 ^ n with
   | Lt => q
   | Gt => q + 1
   | Eq => if Z.even q then q else q + 1
   end)%Z.

(** ** Formatting *)

(** The fixed scheme prefix of the three icon f-strings,
    [f"http:{...}"]. *)
Definition scheme_prefix : string := "http:".

Definition prefix_scheme (path : string) : string := scheme_prefix ++ path.

(** The text [str()] gives a float (shortest round-trip digits), a list or
    a dict (the [repr] of the elements) is a parameter of the development. *)
Class Formatter : Type := str_other : json -> string.

(** [str(v)], as an f-string field [{v}] formats it.  A string formats as
    itself; [None], booleans and integers have a fixed text. *)
Definition py_str {fmt : Formatter} (v : json) : string :=
  match v with
  | JStr s => s
  | JNull => "None"
  | JBool true => "True"
  | JBool false => "False"
  | JInt z => NilZero.string_of_int (Z.to_int z)
  | _ => str_other v
  end.

Definition dquote : string := String (ascii_of_nat 34) EmptyString.

(** ** The three results *)

(** The dict [current_data] of [load_weather_data]. *)
Record current_data : Type := mk_current {
  temperature : json;
  feels_like : json;
  humidity : json;
  condition : json;
  wind_speed : json;
  icon : string;
  sunrise : json;
  sunset : json
}.

(** One row of the data frame [forecast_48hr]. *)
Record hourly_row : Type := mk_hourly {
  h_time : json;
  h_temperature : json;
  h_feels_like : json;
  h_humidity : json;
  h_condition : json;
  h_wind_speed : json;
  h_icon : string
}.

(** One row of the data frame [forecast_10day]. *)
Record daily_row : Type := mk_daily {
  d_date : json;
  d_avg_temperature : json;
  d_condition : json;
  d_wind_speed : json;
  d_sunrise : json;
  d_sunset : json;
  d_icon : string
}.

(** A [pd.DataFrame] built from a list of dicts is modelled by that list,
    and [pd.DataFrame()] by the empty list.  The frame has the rows of the
    list, in its order, and is empty when the list is.  A column that holds
    a string has dtype [object] and keeps its cells as they are; in a
    column of numbers pandas unifies the dtype (an int beside a float
    becomes a float, [None] becomes [NaN]), which the list does not show:
    what is stated of a frame is its row count, its order and its string
    cells (see [kept]). *)
Abbreviation DataFrame := list (only parsing).

Definition empty {row : Type} (df : DataFrame row) : bool :=
  match df with
  | [] => true
  | _ :: _ => false
  end.

(** ** Effects *)

Inductive message : Type :=
| Literal (text : string)
| ErrorLoadingData (e : exn).      (* f"Error loading data: {e}" *)

Inductive figure : Type :=
| Gauge (mode : string) (value : json) (title : string)
    (axis_lo axis_hi : Z) (bar : string)
| Pie (names : list string) (values : list json) (title : string)
    (hole : spec_float)
| Line (x : list string) (y : list json) (x_label y_label title : string).

Inductive event : Type :=
| OpenFile (path : string)
| HttpGet (url : string)
| StTitle (text : string)
| StError (msg : message)
| StStop
| SidebarHeader (text : string)
| SidebarTextInput (label default : string)
| SidebarCheckbox (label : string) (default : bool)
| StSubheader (text : string)
| StImage (url : string) (width : Z)
| StWrite (text : string)
| StColumns (n : nat)
| PlotlyChart (fig : figure)
| StWriteTable (columns : list string) (rows : list (list json)).

(** What [open("config.json")] followed by [json.load] meets. *)
Inductive file_outcome : Type :=
| FileAbsent                 (* [open] raises [FileNotFoundError] *)
| FileUnreadable             (* [open] raises another [OSError] *)
| FileMalformed              (* [json.load] raises [JSONDecodeError] *)
| FileJson (config : json).

(** What [requests.get(url)] followed by [.json()] meets.  A 4xx or 5xx
    status raises nothing: the response is returned and [.json()] parses
    its body like any other. *)
Inductive http_outcome : Type :=
| HttpFails                  (* [requests.get] raises *)
| HttpBadBody                (* [.json()] raises: the body is not JSON *)
| HttpJson (body : json).

(** The file system, the network, the sidebar and the toolkits.  [toolkit]
    tells what a call that validates its argument does with it:
    [st.image] with its image, a Plotly constructor with its figure.
    [None] is a call that returns; [st.image] raises
    [MediaFileStorageError] on a string that is neither a URL nor a file,
    [go.Indicator] raises [ValueError] on a value that is no number. *)
Record world : Type := mk_world {
  config_file : file_outcome;
  net : string -> http_outcome;
  input_city : string;
  input_show_48hr : bool;
  input_show_10day : bool;
  toolkit : event -> option exn
}.

(** A computation returns or raises, and leaves the events it caused, in
    the order they happened.  Events survive an exception. *)
Definition M (A : Type) : Type := (outcome A * list event)%type.

Definition M_ret {A : Type} (a : A) : M A := (Ok a, []).

Definition M_bind {A B : Type} (m : M A) (f : A -> M B) : M B :=
  match m with
  | (Ok a, t) => let (r, t') := f a in (r, (t ++ t')%list)
  | (Exc e, t) => (Exc e, t)
  end.

#[global] Instance Monad_M : Monad M :=
  {| ret := @M_ret; bind := @M_bind |}.

Definition emit (e : event) : M unit := (Ok tt, [e]).

(** A call that validates its argument: the event records the call as
    made, and the call returns or raises as the toolkit decides. *)
Definition call (w : world) (e : event) : M unit :=
  (match toolkit w e with
   | None => Ok tt
   | Some raised => Exc raised
   end, [e]).

Definition raise {A : Type} (e : exn) : M A := (Exc e, []).

Definition lift {A : Type} (o : outcome A) : M A := (o, []).

(** [try: body except <handles> as e: handler e]. *)
Definition try_except {A : Type} (body : M A) (handles : exn -> bool)
    (handler : exn -> M A) : M A :=
  match body with
  | (Ok a, t) => (Ok a, t)
  | (Exc e, t) =>
      if handles e then let (r, t') := handler e in (r, (t ++ t')%list)
      else (Exc e, t)
  end.

Definition is_FileNotFoundError (e : exn) : bool :=
  match e with
  | FileNotFoundError => true
  | _ => false
  end.

(** [StopException] derives from [BaseException]; every other class here
    derives from [Exception]. *)
Definition is_Exception (e : exn) : bool :=
  match e with
  | StopException => false
  | _ => true
  end.

Fixpoint traverse {A B : Type} (f : A -> outcome B) (xs : list A)
    : outcome (list B) :=
  match xs with
  | [] => Ok []
  | x :: xs' => y <- f x ;; ys <- traverse f xs' ;; ret (y :: ys)
  end.

Definition sub (m : outcome json) (k : string) : outcome json :=
  v <- m ;; getitem v k.

Definition sub0 (m : outcome json) : outcome json :=
  v <- m ;; getitem0 v.

Notation "m !! k" := (sub m k) (at level 40, left associativity).

(** ** The program *)

Section Program.

Context {fmt : Formatter}.

(** [f"http:{v}"]. *)
Definition icon_url (v : json) : string := prefix_scheme (py_str v).

(** Lines 9-19. *)
Definition load_api_key (w : world) : M json :=
  try_except
    (emit (OpenFile "config.json") ;;
     config <- match config_file w with
               | FileAbsent => raise FileNotFoundError
               | FileUnreadable => raise PermissionError
               | FileMalformed => raise JSONDecodeError
               | FileJson config => ret config
               end ;;
     lift (getitem config "api_key"))
    is_FileNotFoundError
    (fun _ =>
       emit (StError (Literal "API key configuration file not found.")) ;;
       ret JNull).

Definition forecast_url (api_key : json) (city : string) (days : string)
    : string :=
  "http://api.weatherapi.com/v1/forecast.json?key=" ++ py_str api_key
  ++ "&q=" ++ city ++ "&days=" ++ days ++ "&aqi=no&alerts=no".

Definition url_48hr (city : string) (api_key : json) : string :=
  forecast_url api_key city "2".

Definition url_10day (city : string) (api_key : json) : string :=
  forecast_url api_key city "10".

(** [requests.get(url).json()]. *)
Definition get_json (w : world) (url : string) : M json :=
  emit (HttpGet url) ;;
  match net w url with
  | HttpFails => raise RequestException
  | HttpBadBody => raise JSONDecodeError
  | HttpJson body => ret body
  end.

(** Lines 32-41: the dict display. *)
Definition current_of (data_48hr : json) : outcome current_data :=
  temperature <- Ok data_48hr !! "current" !! "temp_c" ;;
  feels_like <- Ok data_48hr !! "current" !! "feelslike_c" ;;
  humidity <- Ok data_48hr !! "current" !! "humidity" ;;
  condition <- Ok data_48hr !! "current" !! "condition" !! "text" ;;
  wind_speed <- Ok data_48hr !! "current" !! "wind_kph" ;;
  icon <- Ok data_48hr !! "current" !! "condition" !! "icon" ;;
  sunrise <- sub0 (Ok data_48hr !! "forecast" !! "forecastday")
               !! "astro" !! "sunrise" ;;
  sunset <- sub0 (Ok data_48hr !! "forecast" !! "forecastday")
              !! "astro" !! "sunset" ;;
  ret (mk_current temperature feels_like humidity condition wind_speed
         (icon_url icon) sunrise sunset).

(** Lines 44-51: the dict built for one [hour]. *)
Definition hourly_row_of (hour : json) : outcome hourly_row :=
  time <- Ok hour !! "time" ;;
  temperature <- Ok hour !! "temp_c" ;;
  feels_like <- Ok hour !! "feelslike_c" ;;
  humidity <- Ok hour !! "humidity" ;;
  condition <- Ok hour !! "condition" !! "text" ;;
  wind_speed <- Ok hour !! "wind_kph" ;;
  icon <- Ok hour !! "condition" !! "icon" ;;
  ret (mk_hourly time temperature feels_like humidity condition wind_speed
         (icon_url icon)).

(** Line 52, inner loop: [for hour in day["hour"]]. *)
Definition hourly_of_day (day : json) : outcome (list hourly_row) :=
  hour <- Ok day !! "hour" ;;
  hours <- iter hour ;;
  traverse hourly_row_of hours.

(** Lines 44-52: [for day in ... for hour in day["hour"]]. *)
Definition hourly_of (data_48hr : json) : outcome (DataFrame hourly_row) :=
  forecastday <- Ok data_48hr !! "forecast" !! "forecastday" ;;
  days <- iter forecastday ;;
  per_day <- traverse hourly_of_day days ;;
  ret (List.concat per_day).

(** Lines 59-66: the dict built for one [day]. *)
Definition daily_row_of (day : json) : outcome daily_row :=
  date <- Ok day !! "date" ;;
  avg_temperature <- Ok day !! "day" !! "avgtemp_c" ;;
  condition <- Ok day !! "day" !! "condition" !! "text" ;;
  wind_speed <- Ok day !! "day" !! "maxwind_kph" ;;
  sunrise <- Ok day !! "astro" !! "sunrise" ;;
  sunset <- Ok day !! "astro" !! "sunset" ;;
  icon <- Ok day !! "day" !! "condition" !! "icon" ;;
  ret (mk_daily date avg_temperature condition wind_speed sunrise sunset
         (icon_url icon)).

(** Lines 59-67. *)
Definition daily_of (data_10day : json) : outcome (DataFrame daily_row) :=
  forecastday <- Ok data_10day !! "forecast" !! "forecastday" ;;
  days <- iter forecastday ;;
  traverse daily_row_of days.

Definition weather : Type :=
  (option current_data * DataFrame hourly_row * DataFrame daily_row)%type.

(** Lines 21-73. *)
Definition load_weather_data (w : world) (city : string) (api_key : json)
    : M weather :=
  try_except
    (data_48hr <- get_json w (url_48hr city api_key) ;;
     current <- lift (current_of data_48hr) ;;
     forecast_48hr <- lift (hourly_of data_48hr) ;;
     data_10day <- get_json w (url_10day city api_key) ;;
     forecast_10day <- lift (daily_of data_10day) ;;
     ret (Some current, forecast_48hr, forecast_10day))
    is_Exception
    (fun e =>
       emit (StError (ErrorLoadingData e)) ;;
       ret (None, [], [])).

(** [st.stop()] ends the script run. *)
Definition st_stop : M unit := emit StStop ;; raise StopException.

(** The literal [0.4] of [hole=0.4]. *)
Definition hole_0_4 : spec_float := S754_finite false 7205759403792794 (-54).

(** Lines 109-117. *)
Definition temp_gauge (cd : current_data) : figure :=
  Gauge "gauge+number" (temperature cd) "Temperature (°C)" (-30) 50 "blue".

(** Line 124: [[current_data['humidity'], 100 - current_data['humidity']]]. *)
Definition humidity_pie_values (cd : current_data) : outcome (list json) :=
  remaining <- py_sub (JInt 100) (humidity cd) ;;
  ret [humidity cd; remaining].

(** Lines 122-127. *)
Definition humidity_pie (cd : current_data) : outcome figure :=
  values <- humidity_pie_values cd ;;
  ret (Pie ["Humidity"; "Remaining"] values "Humidity Level (%)" hole_0_4).

(** Lines 132-137. *)
Definition feels_like_line (cd : current_data) : outcome figure :=
  morning <- py_sub (feels_like cd) (JInt 2) ;;
  evening <- py_sub (feels_like cd) (JInt 1) ;;
  night <- py_sub (feels_like cd) (JInt 3) ;;
  ret (Line ["Morning"; "Afternoon"; "Evening"; "Night"]
         [morning; feels_like cd; evening; night]
         "Time of Day" "Feels Like Temperature (°C)"
         "Feels Like Temperature Throughout the Day").

(** Lines 89-138, the body of [if current_data:]. *)
Definition show_current (w : world) (city : string) (cd : current_data)
    : M unit :=
  emit (StSubheader ("Current Weather in " ++ city)) ;;
  call w (StImage (icon cd) 100) ;;
  emit (StWrite ("**Temperature:** " ++ py_str (temperature cd) ++ "°C")) ;;
  emit (StWrite ("**Feels Like:** " ++ py_str (feels_like cd) ++ "°C")) ;;
  emit (StWrite ("**Condition:** " ++ py_str (condition cd))) ;;
  emit (StWrite ("**Wind Speed:** " ++ py_str (wind_speed cd) ++ " km/h")) ;;
  emit (StWrite ("**Humidity:** " ++ py_str (humidity cd) ++ "%")) ;;
  emit (StWrite ("**Sunrise:** " ++ py_str (sunrise cd))) ;;
  emit (StWrite ("**Sunset:** " ++ py_str (sunset cd))) ;;
  emit (StSubheader "Current Weather Visuals") ;;
  emit (StColumns 2) ;;
  call w (PlotlyChart (temp_gauge cd)) ;;
  pie <- lift (humidity_pie cd) ;;
  call w (PlotlyChart pie) ;;
  emit (StSubheader "Feels Like Temperature Throughout the Day") ;;
  line <- lift (feels_like_line cd) ;;
  call w (PlotlyChart line).

(** [f'<img src="{x}" width="32">']. *)
Definition img_tag (x : string) : string :=
  "<img src=" ++ dquote ++ x ++ dquote ++ " width=" ++ dquote ++ "32"
  ++ dquote ++ ">".

(** Lines 142-146. *)
Definition show_48hr_table (df : DataFrame hourly_row) : M unit :=
  emit (StSubheader "48-Hour Forecast") ;;
  emit (StWriteTable
          ["time"; "temperature"; "feels_like"; "humidity"; "condition";
           "wind_speed"; "icon"]
          (map (fun r => [h_time r; h_temperature r; h_feels_like r;
                          h_humidity r; h_condition r; h_wind_speed r;
                          JStr (img_tag (h_icon r))]) df)).

(** Lines 150-154. *)
Definition show_10day_table (df : DataFrame daily_row) : M unit :=
  emit (StSubheader "10-Day Forecast") ;;
  emit (StWriteTable
          ["date"; "avg_temperature"; "condition"; "wind_speed"; "sunrise";
           "sunset"; "icon"]
          (map (fun r => [d_date r; d_avg_temperature r; d_condition r;
                          d_wind_speed r; d_sunrise r; d_sunset r;
                          JStr (img_tag (d_icon r))]) df)).

(** Lines 87-154: what [main] does once it holds a truthy key. *)
Definition show_weather (w : world) (api_key : json) : M unit :=
  emit (SidebarHeader "City Selection and Options") ;;
  emit (SidebarTextInput "Enter City" "London") ;;
  let city := input_city w in
  emit (SidebarCheckbox "Show 48-Hour Forecast" false) ;;
  let show_48hr := input_show_48hr w in
  emit (SidebarCheckbox "Show 10-Day Forecast" false) ;;
  let show_10day := input_show_10day w in
  loaded <- load_weather_data w city api_key ;;
  let '(current, forecast_48hr, forecast_10day) := loaded in
  match current with
  | Some cd => show_current w city cd
  | None => ret tt
  end ;;
  (if show_48hr && negb (empty forecast_48hr)
   then show_48hr_table forecast_48hr else ret tt) ;;
  (if show_10day && negb (empty forecast_10day)
   then show_10day_table forecast_10day else ret tt).

(** Lines 75-154. *)
Definition main (w : world) : M unit :=
  emit (StTitle "Weather Data Viewer") ;;
  api_key <- load_api_key w ;;
  (if negb (truthy api_key) then st_stop else ret tt) ;;
  show_weather w api_key.

(** What the handler of line 71 leaves after the events [events]. *)
Definition failure_run (events : list event) (e : exn) : M weather :=
  (Ok (None, [], []), (events ++ [StError (ErrorLoadingData e)])%list).

(** ** The documented payload shape *)

(** Both bodies are documented as
    [{ current: {...}, forecast: { forecastday: [ { date, astro: {sunrise,
    sunset}, day: {...}, hour: [...] }, ... ] } }].  A path selects a member
    of an object by key or an element of an array by position. *)
Inductive step : Type :=
| Key (k : string)
| Index (i : nat).

Fixpoint at_path (p : list step) (v : json) : option json :=
  match p with
  | [] => Some v
  | Key k :: p' =>
      match v with
      | JObj items =>
          match lookup k items with
          | Some x => at_path p' x
          | None => None
          end
      | _ => None
      end
  | Index i :: p' =>
      match v with
      | JArr xs =>
          match nth_error xs i with
          | Some x => at_path p' x
          | None => None
          end
      | _ => None
      end
  end.

Definition has (v : json) (keys : list string) : bool :=
  match at_path (map Key keys) v with
  | Some _ => true
  | None => false
  end.

(** The days of a payload and the hours of a day, as the payload lists
    them. *)
Definition forecast_days (payload : json) : list json :=
  match at_path [Key "forecast"; Key "forecastday"] payload with
  | Some (JArr days) => days
  | _ => []
  end.

Definition hours (day : json) : list json :=
  match at_path [Key "hour"] day with
  | Some (JArr hs) => hs
  | _ => []
  end.

Definition current_fields : list (list string) :=
  [["current"; "temp_c"]; ["current"; "feelslike_c"];
   ["current"; "humidity"]; ["current"; "condition"; "text"];
   ["current"; "wind_kph"]; ["current"; "condition"; "icon"]].

Definition hour_fields : list (list string) :=
  [["time"]; ["temp_c"]; ["feelslike_c"]; ["humidity"];
   ["condition"; "text"]; ["wind_kph"]; ["condition"; "icon"]].

Definition day_fields : list (list string) :=
  [["date"]; ["day"; "avgtemp_c"]; ["day"; "condition"; "text"];
   ["day"; "maxwind_kph"]; ["astro"; "sunrise"]; ["astro"; "sunset"];
   ["day"; "condition"; "icon"]].

Definition wf_hour (hour : json) : bool := forallb (has hour) hour_fields.

Definition wf_day (day : json) : bool :=
  forallb (has day) day_fields
  && match at_path [Key "hour"] day with
     | Some (JArr hs) => forallb wf_hour hs
     | _ => false
     end.

(** A body matches the documented shape when the fields of [current] are
    there and [forecastday] is an array of at least one well-formed day. *)
Definition documented_shape (payload : json) : bool :=
  forallb (has payload) current_fields
  && match at_path [Key "forecast"; Key "forecastday"] payload with
     | Some (JArr (day :: days)) => forallb wf_day (day :: days)
     | _ => false
     end.

(** The row [r] carries the fields of [hour]. *)
Definition hourly_from (hour : json) (r : hourly_row) : Prop :=
  at_path [Key "time"] hour = Some (h_time r)
  /\ at_path [Key "temp_c"] hour = Some (h_temperature r)
  /\ at_path [Key "feelslike_c"] hour = Some (h_feels_like r)
  /\ at_path [Key "humidity"] hour = Some (h_humidity r)
  /\ at_path [Key "condition"; Key "text"] hour = Some (h_condition r)
  /\ at_path [Key "wind_kph"] hour = Some (h_wind_speed r)
  /\ exists partial,
       at_path [Key "condition"; Key "icon"] hour = Some partial
       /\ h_icon r = scheme_prefix ++ py_str partial.

(** The row [r] carries the fields of [day]. *)
Definition daily_from (day : json) (r : daily_row) : Prop :=
  at_path [Key "date"] day = Some (d_date r)
  /\ at_path [Key "day"; Key "avgtemp_c"] day = Some (d_avg_temperature r)
  /\ at_path [Key "day"; Key "condition"; Key "text"] day
     = Some (d_condition r)
  /\ at_path [Key "day"; Key "maxwind_kph"] day = Some (d_wind_speed r)
  /\ at_path [Key "astro"; Key "sunrise"] day = Some (d_sunrise r)
  /\ at_path [Key "astro"; Key "sunset"] day = Some (d_sunset r)
  /\ exists partial,
       at_path [Key "day"; Key "condition"; Key "icon"] day = Some partial
       /\ d_icon r = scheme_prefix ++ py_str partial.

(** ** What a frame keeps of its rows *)

Definition is_str (v : json) : bool :=
  match v with
  | JStr _ => true
  | _ => false
  end.

(** A cell whose source value is a string holds that string. *)
Definition kept (source cell : json) : Prop :=
  is_str source = true -> cell = source.

(** The row [r] of the hourly frame stands for [hour]: its icon is the
    prefixed icon of [hour], and each of its cells is kept from the field of
    [hour] it is read from. *)
Definition hourly_keeps (hour : json) (r : hourly_row) : Prop :=
  (exists v, at_path [Key "time"] hour = Some v /\ kept v (h_time r))
  /\ (exists v, at_path [Key "temp_c"] hour = Some v
                /\ kept v (h_temperature r))
  /\ (exists v, at_path [Key "feelslike_c"] hour = Some v
                /\ kept v (h_feels_like r))
  /\ (exists v, at_path [Key "humidity"] hour = Some v
                /\ kept v (h_humidity r))
  /\ (exists v, at_path [Key "condition"; Key "text"] hour = Some v
                /\ kept v (h_condition r))
  /\ (exists v, at_path [Key "wind_kph"] hour = Some v
                /\ kept v (h_wind_speed r))
  /\ exists partial,
       at_path [Key "condition"; Key "icon"] hour = Some partial
       /\ h_icon r = scheme_prefix ++ py_str partial.

(** The row [r] of the daily frame stands for [day]. *)
Definition daily_keeps (day : json) (r : daily_row) : Prop :=
  (exists v, at_path [Key "date"] day = Some v /\ kept v (d_date r))
  /\ (exists v, at_path [Key "day"; Key "avgtemp_c"] day = Some v
                /\ kept v (d_avg_temperature r))
  /\ (exists v, at_path [Key "day"; Key "condition"; Key "text"] day = Some v
                /\ kept v (d_condition r))
  /\ (exists v, at_path [Key "day"; Key "maxwind_kph"] day = Some v
                /\ kept v (d_wind_speed r))
  /\ (exists v, at_path [Key "astro"; Key "sunrise"] day = Some v
                /\ kept v (d_sunrise r))
  /\ (exists v, at_path [Key "astro"; Key "sunset"] day = Some v
                /\ kept v (d_sunset r))
  /\ exists partial,
       at_path [Key "day"; Key "condition"; Key "icon"] day = Some partial
       /\ d_icon r = scheme_prefix ++ py_str partial.

(** The dict [cd] carries the fields of [payload]. *)
Definition current_from (payload : json) (cd : current_data) : Prop :=
  at_path [Key "current"; Key "temp_c"] payload = Some (temperature cd)
  /\ at_path [Key "current"; Key "feelslike_c"] payload
     = Some (feels_like cd)
  /\ at_path [Key "current"; Key "humidity"] payload = Some (humidity cd)
  /\ at_path [Key "current"; Key "condition"; Key "text"] payload
     = Some (condition cd)
  /\ at_path [Key "current"; Key "wind_kph"] payload = Some (wind_speed cd)
  /\ at_path [Key "forecast"; Key "forecastday"; Index 0; Key "astro";
              Key "sunrise"] payload = Some (sunrise cd)
  /\ at_path [Key "forecast"; Key "forecastday"; Index 0; Key "astro";
              Key "sunset"] payload = Some (sunset cd)
  /\ exists partial,
       at_path [Key "current"; Key "condition"; Key "icon"] payload
       = Some partial
       /\ icon cd = scheme_prefix ++ py_str partial.

(** The HTTP requests among the events of a trace. *)
Fixpoint requests (t : list event) : list string :=
  match t with
  | [] => []
  | HttpGet url :: t' => url :: requests t'
  | _ :: t' => requests t'
  end.

(** Exceptions raised by subscripting and iterating. *)
Definition lookup_error (e : exn) : bool :=
  match e with
  | KeyError _ | IndexError | TypeError => true
  | _ => false
  end.

Definition raises_lookup {A : Type} (m : outcome A) : Prop :=
  forall e, m = Exc e -> lookup_error e = true.

Definition failed {A : Type} (m : outcome A) : bool :=
  match m with
  | Ok _ => false
  | Exc _ => true
  end.

(** The 2-day request fails: [requests.get] raises, the body is not JSON,
    or building [current_data] or [forecast_48hr] from it raises. *)
Definition first_request_fails (out : http_outcome) : bool :=
  match out with
  | HttpFails | HttpBadBody => true
  | HttpJson body => failed (current_of body) || failed (hourly_of body)
  end.

(** The 10-day request fails: [requests.get] raises, the body is not JSON,
    or building [forecast_10day] from it raises. *)
Definition second_request_fails (out : http_outcome) : bool :=
  match out with
  | HttpFails | HttpBadBody => true
  | HttpJson body => failed (daily_of body)
  end.

(** The messages reported with [st.error] among the events of a trace. *)
Fixpoint errors (t : list event) : list message :=
  match t with
  | [] => []
  | StError msg :: t' => msg :: errors t'
  | _ :: t' => errors t'
  end.

(** The events of lines 76-78, up to the loading of the key. *)
Definition startup_events : list event :=
  [StTitle "Weather Data Viewer"; OpenFile "config.json"].

(** The widgets of lines 82-85. *)
Definition sidebar_events : list event :=
  [SidebarHeader "City Selection and Options";
   SidebarTextInput "Enter City" "London";
   SidebarCheckbox "Show 48-Hour Forecast" false;
   SidebarCheckbox "Show 10-Day Forecast" false].

End Program.

(** ** Sample inputs *)

Module Sample.

Definition fmt : Formatter := fun _ => "?".

Definition sunny : json :=
  JObj [("text", JStr "Sunny");
        ("icon", JStr "//cdn.weatherapi.com/weather/64x64/day/113.png");
        ("code", JInt 1000)].

Definition hour (time : string) : json :=
  JObj [("time", JStr time); ("temp_c", JInt 12); ("feelslike_c", JInt 11);
        ("humidity", JInt 70); ("condition", sunny); ("wind_kph", JInt 9)].

Definition day (date : string) : json :=
  JObj [("date", JStr date);
        ("day", JObj [("avgtemp_c", JInt 10); ("maxwind_kph", JInt 20);
                      ("condition", sunny)]);
        ("astro", JObj [("sunrise", JStr "07:01 AM");
                        ("sunset", JStr "04:30 PM")]);
        ("hour", JArr [hour (date ++ " 00:00"); hour (date ++ " 01:00")])].

Definition current : json :=
  JObj [("temp_c", JInt 12); ("feelslike_c", JInt 11); ("humidity", JInt 70);
        ("condition", sunny); ("wind_kph", JInt 9)].

Definition payload (days : list json) : json :=
  JObj [("location", JObj [("name", JStr "London")]);
        ("current", current);
        ("forecast", JObj [("forecastday", JArr days)])].

Definition two_days : list json := [day "2024-01-01"; day "2024-01-02"].

Definition ten_days : list json :=
  [day "2024-01-01"; day "2024-01-02"; day "2024-01-03"; day "2024-01-04";
   day "2024-01-05"; day "2024-01-06"; day "2024-01-07"; day "2024-01-08";
   day "2024-01-09"; day "2024-01-10"].

Definition key : json := JStr "k".

Definition city : string := "London".

(** A network that answers the 2-day request with [first] and every other
    request with [second]. *)
Definition network (first second : http_outcome) (url : string)
    : http_outcome :=
  if String.eqb url (url_48hr (fmt := fmt) city key) then first else second.

Definition world_with (file : file_outcome) (first second : http_outcome)
    : world :=
  mk_world file (network first second) city true true (fun _ => None).

Definition config : json := JObj [("api_key", key)].

(** The body weatherapi.com sends with a 4xx status. *)
Definition error_body : json :=
  JObj [("error", JObj [("code", JInt 1006);
                        ("message", JStr "No matching location found.")])].

Definition body2 : json := payload two_days.

Definition body10 : json := payload ten_days.

(** Both requests answered. *)
Definition w_ok : world :=
  world_with (FileJson config) (HttpJson body2) (HttpJson body10).

(** The connection drops after the first answer. *)
Definition w_second_down : world :=
  world_with (FileJson config) (HttpJson body2) HttpFails.

(** The provider rejects the first request. *)
Definition w_first_rejected : world :=
  world_with (FileJson config) (HttpJson error_body) (HttpJson body10).

(** The first answer lists no forecast day. *)
Definition w_no_days : world :=
  world_with (FileJson config) (HttpJson (payload [])) (HttpJson body10).

(** No [config.json]. *)
Definition w_no_config : world :=
  world_with FileAbsent (HttpJson body2) (HttpJson body10).

(** A [config.json] without the key. *)
Definition w_no_key : world :=
  world_with (FileJson (JObj [("key", key)])) (HttpJson body2)
    (HttpJson body10).

Definition cd : current_data :=
  mk_current (JInt 12) (JInt 11) (JInt 70) (JStr "Sunny") (JInt 9)
    "http://cdn.weatherapi.com/weather/64x64/day/113.png"
    (JStr "07:01 AM") (JStr "04:30 PM").

(** The same conditions with the humidity [30.7], a float. *)
Definition humidity_30_7 : spec_float :=
  S754_finite false 8641281785017139 (-48).

Definition cd_float : current_data :=
  mk_current (JInt 12) (JInt 11) (JFloat humidity_30_7) (JStr "Sunny")
    (JInt 9) "http://cdn.weatherapi.com/weather/64x64/day/113.png"
    (JStr "07:01 AM") (JStr "04:30 PM").

(** The same conditions with the humidity missing from the reading: a
    JSON [null]. *)
Definition cd_no_humidity : current_data :=
  mk_current (JInt 12) (JInt 11) JNull (JStr "Sunny") (JInt 9)
    "http://cdn.weatherapi.com/weather/64x64/day/113.png"
    (JStr "07:01 AM") (JStr "04:30 PM").

(** A [config.json] with an empty key. *)
Definition w_empty_key : world :=
  world_with (FileJson (JObj [("api_key", JStr "")])) (HttpJson body2)
    (HttpJson body10).

(** What the fetch returns in [w_ok]. *)
Definition fetched : weather :=
  match fst (load_weather_data (fmt := fmt) w_ok city key) with
  | Ok r => r
  | Exc _ => (None, [], [])
  end.

Definition hs : list hourly_row := snd (fst fetched).

Definition ds : list daily_row := snd fetched.

(** An hour without its humidity, in the second day. *)
Definition bad_hour : json :=
  JObj [("time", JStr "2024-01-02 02:00"); ("temp_c", JInt 12);
        ("feelslike_c", JInt 11); ("condition", sunny); ("wind_kph", JInt 9)].

Definition day_with_bad_hour : json :=
  JObj [("date", JStr "2024-01-02");
        ("day", JObj [("avgtemp_c", JInt 10); ("maxwind_kph", JInt 20);
                      ("condition", sunny)]);
        ("astro", JObj [("sunrise", JStr "07:01 AM");
                        ("sunset", JStr "04:30 PM")]);
        ("hour", JArr [hour "2024-01-02 00:00"; bad_hour])].

Definition w_bad_hour : world :=
  world_with (FileJson config)
    (HttpJson (payload [day "2024-01-01"; day_with_bad_hour]))
    (HttpJson body10).

(** A day without its date. *)
Definition bad_day : json :=
  JObj [("day", JObj [("avgtemp_c", JInt 10); ("maxwind_kph", JInt 20);
                      ("condition", sunny)]);
        ("astro", JObj [("sunrise", JStr "07:01 AM");
                        ("sunset", JStr "04:30 PM")])].

Definition w_bad_day : world :=
  world_with (FileJson config) (HttpJson body2)
    (HttpJson (payload [day "2024-01-01"; bad_day])).

(** A 10-day answer without days. *)
Definition w_no_ten_days : world :=
  world_with (FileJson config) (HttpJson body2) (HttpJson (payload [])).

(** A 2-day answer whose days are the members of an object. *)
Definition keyed_days : json := JObj [("0", day "2024-01-01")].

Definition keyed_body : json :=
  JObj [("current", current);
        ("forecast", JObj [("forecastday", keyed_days)])].

Definition w_keyed_days : world :=
  world_with (FileJson config) (HttpJson keyed_body) (HttpJson body10).

End Sample.

(** * Properties *)

Section Properties.

Context {fmt : Formatter}.

(** ** Paths and subscripts agree *)

Lemma at_path_app (p q : list step) (v : json) :
  at_path (p ++ q)%list v
  = match at_path p v with
    | Some x => at_path q x
    | None => None
    end.
Proof.
  revert v. induction p as [|s p IH]; intros v; [reflexivity|].
  destruct s as [k|i]; simpl.
  - destruct v; try reflexivity.
    destruct (lookup k items); [apply IH | reflexivity].
  - destruct v; try reflexivity.
    destruct (nth_error xs i); [apply IH | reflexivity].
Qed.

Lemma chain_ok (keys : list string) (v x : json) :
  at_path (map Key keys) v = Some x -> fold_left sub keys (Ok v) = Ok x.
Proof.
  revert v. induction keys as [|k keys IH]; intros v H; simpl in *.
  - congruence.
  - destruct v; try discriminate.
    destruct (lookup k items) as [y|] eqn:E; [|discriminate].
    unfold sub at 2. simpl. rewrite E. now apply IH.
Qed.

Lemma chain1 (v x : json) (a : string) :
  at_path [Key a] v = Some x -> Ok v !! a = Ok x.
Proof. exact (chain_ok [a] v x). Qed.

Lemma chain2 (v x : json) (a b : string) :
  at_path [Key a; Key b] v = Some x -> Ok v !! a !! b = Ok x.
Proof. exact (chain_ok [a; b] v x). Qed.

Lemma chain3 (v x : json) (a b c : string) :
  at_path [Key a; Key b; Key c] v = Some x -> Ok v !! a !! b !! c = Ok x.
Proof. exact (chain_ok [a; b; c] v x). Qed.

Lemma has_true (v : json) (keys : list string) :
  has v keys = true -> exists x, at_path (map Key keys) v = Some x.
Proof.
  unfold has. destruct (at_path (map Key keys) v) as [x|]; [|discriminate].
  now exists x.
Qed.

Ltac has_facts :=
  repeat match goal with
    | H : _ && _ = true |- _ => apply andb_true_iff in H; destruct H
    | H : has _ _ = true |- _ =>
        apply has_true in H; cbn [map] in H; destruct H
    end.

(** ** Loops *)

Lemma traverse_Forall2 {A B : Type} (f : A -> outcome B) (R : A -> B -> Prop)
    (xs : list A) :
  Forall (fun x => exists y, f x = Ok y /\ R x y) xs ->
  exists ys, traverse f xs = Ok ys /\ Forall2 R xs ys.
Proof.
  induction 1 as [|x xs (y & Hy & Hxy) _ (ys & Hys & Hall)].
  - exists []. split; [reflexivity | constructor].
  - exists (y :: ys). cbn [traverse]. rewrite Hy, Hys.
    split; [reflexivity | now constructor].
Qed.

Lemma Forall2_flat_map {A B C : Type} (R : C -> B -> Prop) (g : A -> list C)
    (xs : list A) (yss : list (list B)) :
  Forall2 (fun x ys => Forall2 R (g x) ys) xs yss ->
  Forall2 R (flat_map g xs) (List.concat yss).
Proof.
  induction 1 as [|x ys xs yss Hx _ IH]; cbn [flat_map List.concat].
  - constructor.
  - now apply Forall2_app.
Qed.

Lemma Forall2_nth_error_l {A B : Type} (R : A -> B -> Prop) (xs : list A)
    (ys : list B) :
  Forall2 R xs ys ->
  forall i x, nth_error xs i = Some x ->
              exists y, nth_error ys i = Some y /\ R x y.
Proof.
  induction 1 as [|x y xs ys Hxy _ IH]; intros i a Hi.
  - destruct i; discriminate.
  - destruct i as [|i]; cbn [nth_error] in *.
    + injection Hi as <-. now exists y.
    + now apply IH.
Qed.

Lemma forallb_Forall {A : Type} (f : A -> bool) (xs : list A) :
  forallb f xs = true -> Forall (fun x => f x = true) xs.
Proof.
  intros H. apply Forall_forall. now apply forallb_forall.
Qed.

(** ** Well-formed input is reshaped field by field *)

Lemma hourly_row_of_wf (hour : json) :
  wf_hour hour = true ->
  exists r, hourly_row_of hour = Ok r /\ hourly_from hour r.
Proof.
  unfold wf_hour, hour_fields. cbn [forallb]. intros H. has_facts.
  unfold hourly_row_of.
  repeat match goal with
    | E : at_path [Key _] _ = Some _ |- _ =>
        rewrite (chain1 _ _ _ E); revert E
    | E : at_path [Key _; Key _] _ = Some _ |- _ =>
        rewrite (chain2 _ _ _ _ E); revert E
    end.
  intros. eexists. split; [reflexivity|].
  unfold hourly_from. cbn.
  repeat (split; [assumption|]). eexists. split; [eassumption | reflexivity].
Qed.

Lemma hourly_of_day_wf (day : json) :
  wf_day day = true ->
  exists rows, hourly_of_day day = Ok rows
               /\ Forall2 hourly_from (hours day) rows.
Proof.
  unfold wf_day. intros H. apply andb_true_iff in H. destruct H as [_ H].
  unfold hours, hourly_of_day.
  destruct (at_path [Key "hour"] day) as [[| | | | |hs|]|] eqn:E;
    try discriminate.
  rewrite (chain1 _ _ _ E). cbn [bind Monad_outcome iter].
  apply traverse_Forall2.
  eapply Forall_impl; [|apply forallb_Forall, H].
  intros h Hh. now apply hourly_row_of_wf.
Qed.

Lemma hourly_of_shape (payload : json) :
  documented_shape payload = true ->
  exists rows, hourly_of payload = Ok rows
               /\ Forall2 hourly_from (flat_map hours (forecast_days payload))
                    rows.
Proof.
  unfold documented_shape. intros H. apply andb_true_iff in H.
  destruct H as [_ H]. unfold forecast_days, hourly_of.
  destruct (at_path [Key "forecast"; Key "forecastday"] payload)
    as [[| | | | |[|d ds]|]|] eqn:E; try discriminate.
  rewrite (chain2 _ _ _ _ E). cbn [bind Monad_outcome iter].
  destruct (traverse_Forall2 hourly_of_day
              (fun d rows => Forall2 hourly_from (hours d) rows) (d :: ds))
    as (per_day & Ht & Hall).
  { eapply Forall_impl; [|apply forallb_Forall, H].
    intros a Ha. now apply hourly_of_day_wf. }
  rewrite Ht. eexists. split; [reflexivity|]. now apply Forall2_flat_map.
Qed.

Lemma daily_row_of_wf (day : json) :
  wf_day day = true ->
  exists r, daily_row_of day = Ok r /\ daily_from day r.
Proof.
  unfold wf_day, day_fields. cbn [forallb]. intros H.
  apply andb_true_iff in H. destruct H as [H _]. has_facts.
  unfold daily_row_of.
  repeat match goal with
    | E : at_path [Key _] _ = Some _ |- _ =>
        rewrite (chain1 _ _ _ E); revert E
    | E : at_path [Key _; Key _] _ = Some _ |- _ =>
        rewrite (chain2 _ _ _ _ E); revert E
    | E : at_path [Key _; Key _; Key _] _ = Some _ |- _ =>
        rewrite (chain3 _ _ _ _ _ E); revert E
    end.
  intros. eexists. split; [reflexivity|].
  unfold daily_from. cbn.
  repeat (split; [assumption|]). eexists. split; [eassumption | reflexivity].
Qed.

Lemma daily_of_shape (payload : json) :
  documented_shape payload = true ->
  exists rows, daily_of payload = Ok rows
               /\ Forall2 daily_from (forecast_days payload) rows.
Proof.
  unfold documented_shape. intros H. apply andb_true_iff in H.
  destruct H as [_ H]. unfold forecast_days, daily_of.
  destruct (at_path [Key "forecast"; Key "forecastday"] payload)
    as [[| | | | |[|d ds]|]|] eqn:E; try discriminate.
  rewrite (chain2 _ _ _ _ E). cbn [bind Monad_outcome iter].
  apply traverse_Forall2.
  eapply Forall_impl; [|apply forallb_Forall, H].
  intros a Ha. now apply daily_row_of_wf.
Qed.

Lemma first_day_path (payload d x : json) (ds : list json) (a b : string) :
  at_path [Key "forecast"; Key "forecastday"] payload = Some (JArr (d :: ds)) ->
  at_path [Key a; Key b] d = Some x ->
  at_path [Key "forecast"; Key "forecastday"; Index 0; Key a; Key b] payload
  = Some x.
Proof.
  intros E Hx.
  change [Key "forecast"; Key "forecastday"; Index 0; Key a; Key b]
    with ([Key "forecast"; Key "forecastday"] ++ [Index 0; Key a; Key b])%list.
  rewrite at_path_app, E. exact Hx.
Qed.

Lemma current_of_shape (payload : json) :
  documented_shape payload = true ->
  exists cd, current_of payload = Ok cd /\ current_from payload cd.
Proof.
  unfold documented_shape, current_fields. cbn [forallb]. intros H.
  apply andb_true_iff in H. destruct H as [H Hd].
  destruct (at_path [Key "forecast"; Key "forecastday"] payload)
    as [[| | | | |[|d ds]|]|] eqn:E; try discriminate.
  cbn [forallb] in Hd. apply andb_true_iff in Hd. destruct Hd as [Hd _].
  unfold wf_day, day_fields in Hd. cbn [forallb] in Hd.
  apply andb_true_iff in Hd. destruct Hd as [Hd _]. has_facts.
  unfold current_of.
  repeat match goal with
    | F : at_path [Key "current"; Key _] _ = Some _ |- _ =>
        rewrite (chain2 _ _ _ _ F); revert F
    | F : at_path [Key "current"; Key _; Key _] _ = Some _ |- _ =>
        rewrite (chain3 _ _ _ _ _ F); revert F
    end.
  rewrite (chain2 _ _ _ _ E).
  change (sub0 (Ok (JArr (d :: ds)))) with (Ok d).
  repeat match goal with
    | F : at_path [Key "astro"; Key _] d = Some _ |- _ =>
        rewrite (chain2 _ _ _ _ F);
        apply (first_day_path _ _ _ _ _ _ E) in F; revert F
    end.
  intros. eexists. split; [reflexivity|].
  unfold current_from. cbn [temperature feels_like humidity condition
                             wind_speed icon sunrise sunset].
  repeat (split; [assumption|]). eexists. split; [eassumption | reflexivity].
Qed.

(** ** What the reshaping code can raise *)

Lemma raises_Ok {A : Type} (a : A) : raises_lookup (Ok a).
Proof. intros e H. discriminate. Qed.

Lemma raises_bind {A B : Type} (m : outcome A) (f : A -> outcome B) :
  raises_lookup m -> (forall a, raises_lookup (f a)) ->
  raises_lookup (bind m f).
Proof.
  intros Hm Hf e. destruct m as [a|e']; cbn.
  - apply Hf.
  - intros [= <-]. now apply Hm.
Qed.

Lemma raises_getitem (v : json) (k : string) : raises_lookup (getitem v k).
Proof.
  intros e. destruct v; cbn; try (intros [= <-]; reflexivity).
  destruct (lookup k items); [discriminate | intros [= <-]; reflexivity].
Qed.

Lemma raises_getitem0 (v : json) : raises_lookup (getitem0 v).
Proof.
  intros e. destruct v as [| | | |s|[|x xs]|]; cbn;
    try (intros [= <-]; reflexivity); try discriminate.
  destruct (chars s); [intros [= <-]; reflexivity | discriminate].
Qed.

Lemma raises_iter (v : json) : raises_lookup (iter v).
Proof.
  intros e. destruct v; cbn; try (intros [= <-]; reflexivity);
    discriminate.
Qed.

Lemma raises_sub (m : outcome json) (k : string) :
  raises_lookup m -> raises_lookup (m !! k).
Proof.
  intros Hm. apply raises_bind; [exact Hm | intros a; apply raises_getitem].
Qed.

Lemma raises_sub0 (m : outcome json) :
  raises_lookup m -> raises_lookup (sub0 m).
Proof.
  intros Hm. apply raises_bind; [exact Hm | intros a; apply raises_getitem0].
Qed.

Lemma raises_traverse {A B : Type} (f : A -> outcome B) (xs : list A) :
  (forall x, raises_lookup (f x)) -> raises_lookup (traverse f xs).
Proof.
  intros Hf. induction xs as [|x xs IH]; cbn [traverse].
  - apply raises_Ok.
  - apply raises_bind; [apply Hf|]. intros y.
    apply raises_bind; [apply IH|]. intros ys. apply raises_Ok.
Qed.

Ltac raises_tac :=
  repeat first
    [ apply raises_Ok
    | apply raises_getitem
    | apply raises_iter
    | apply raises_sub
    | apply raises_sub0
    | apply raises_traverse; intros ?
    | apply raises_bind; [|intros ?] ].

Lemma current_of_raises (payload : json) : raises_lookup (current_of payload).
Proof. unfold current_of. raises_tac. Qed.

Lemma hourly_of_raises (payload : json) : raises_lookup (hourly_of payload).
Proof.
  unfold hourly_of, hourly_of_day, hourly_row_of. raises_tac.
Qed.

Lemma daily_of_raises (payload : json) : raises_lookup (daily_of payload).
Proof.
  unfold daily_of, daily_row_of. raises_tac.
Qed.

Lemma lookup_error_is_Exception (e : exn) :
  lookup_error e = true -> is_Exception e = true.
Proof. destruct e; (reflexivity || discriminate). Qed.

(** ** The two URLs *)

Lemma append_inv_head (s a b : string) : s ++ a = s ++ b -> a = b.
Proof.
  induction s as [|c s IH]; cbn; intros H; [exact H|].
  injection H as H. now apply IH.
Qed.

Lemma urls_differ (city : string) (api_key : json) :
  url_48hr city api_key <> url_10day city api_key.
Proof.
  unfold url_48hr, url_10day, forecast_url. intros H.
  repeat apply append_inv_head in H. discriminate H.
Qed.

(** ** Runs of [load_weather_data] *)

Tactic Notation "run" :=
  cbn -[current_of hourly_of daily_of url_48hr url_10day].
Tactic Notation "run" "in" hyp(H) "|-" "*" :=
  cbn -[current_of hourly_of daily_of url_48hr url_10day] in H |- *.

Lemma load_weather_data_ok (w : world) (city : string) (api_key : json)
    (p2 p10 : json) (cd : current_data) (hs : list hourly_row)
    (ds : list daily_row) :
  net w (url_48hr city api_key) = HttpJson p2 ->
  net w (url_10day city api_key) = HttpJson p10 ->
  current_of p2 = Ok cd -> hourly_of p2 = Ok hs -> daily_of p10 = Ok ds ->
  load_weather_data w city api_key
  = (Ok (Some cd, hs, ds),
     [HttpGet (url_48hr city api_key); HttpGet (url_10day city api_key)]).
Proof.
  intros N1 N2 Hc Hh Hd. unfold load_weather_data, get_json.
  rewrite N1, N2. run. rewrite Hc. run. rewrite Hh. run. rewrite Hd.
  reflexivity.
Qed.

Lemma load_weather_data_first_fails (w : world) (city : string)
    (api_key : json) :
  first_request_fails (net w (url_48hr city api_key)) = true ->
  exists e, load_weather_data w city api_key
            = failure_run [HttpGet (url_48hr city api_key)] e.
Proof.
  unfold load_weather_data, get_json, failure_run.
  destruct (net w (url_48hr city api_key)) as [| |p2]; intros F.
  - now exists RequestException.
  - now exists JSONDecodeError.
  - run in F |- *.
    destruct (current_of p2) as [cd|e] eqn:Hc; run.
    + destruct (hourly_of p2) as [hs|e] eqn:Hh; [discriminate|]. run.
      exists e.
      now rewrite (lookup_error_is_Exception e (hourly_of_raises p2 e Hh)).
    + exists e.
      now rewrite (lookup_error_is_Exception e (current_of_raises p2 e Hc)).
Qed.

Lemma load_weather_data_second_fails (w : world) (city : string)
    (api_key : json) :
  first_request_fails (net w (url_48hr city api_key)) = false ->
  second_request_fails (net w (url_10day city api_key)) = true ->
  exists e, load_weather_data w city api_key
            = failure_run [HttpGet (url_48hr city api_key);
                           HttpGet (url_10day city api_key)] e.
Proof.
  unfold load_weather_data, get_json, failure_run.
  destruct (net w (url_48hr city api_key)) as [| |p2]; try discriminate.
  cbn [first_request_fails]. intros F1.
  apply orb_false_iff in F1. destruct F1 as [Hc Hh].
  destruct (current_of p2) as [cd|] eqn:Ec; [clear Hc | discriminate].
  destruct (hourly_of p2) as [hs|] eqn:Eh; [clear Hh | discriminate].
  destruct (net w (url_10day city api_key)) as [| |p10]; intros F2.
  - run. rewrite Ec. run. rewrite Eh. now exists RequestException.
  - run. rewrite Ec. run. rewrite Eh. now exists JSONDecodeError.
  - run in F2 |- *. rewrite Ec. run. rewrite Eh. run.
    destruct (daily_of p10) as [ds|e] eqn:Hd; [discriminate|]. run.
    exists e.
    now rewrite (lookup_error_is_Exception e (daily_of_raises p10 e Hd)).
Qed.

Lemma first_request_succeeds (out : http_outcome) :
  first_request_fails out = false ->
  exists p2 cd hs,
    out = HttpJson p2 /\ current_of p2 = Ok cd /\ hourly_of p2 = Ok hs.
Proof.
  destruct out as [| |p2]; try discriminate. cbn [first_request_fails].
  intros F. apply orb_false_iff in F. destruct F as [Hc Hh].
  destruct (current_of p2) as [cd|] eqn:Ec; [|discriminate].
  destruct (hourly_of p2) as [hs|] eqn:Eh; [|discriminate].
  now exists p2, cd, hs.
Qed.

Lemma requests_failure_run (urls : list string) (e : exn) :
  requests (snd (failure_run (map HttpGet urls) e)) = urls.
Proof.
  unfold failure_run. cbn [snd].
  induction urls as [|u urls IH]; [reflexivity|].
  cbn [map app requests]. now rewrite IH.
Qed.

Lemma In_HttpGet_requests (url : string) (t : list event) :
  In (HttpGet url) t -> In url (requests t).
Proof.
  induction t as [|ev t IH]; [easy|].
  intros [->|H]; [now left|].
  destruct ev; cbn [requests]; auto. right. auto.
Qed.

(** ** Bodies that fail, bodies that do not *)

Lemma failed_fold_sub (keys : list string) (m : outcome json) :
  failed m = true -> failed (fold_left sub keys m) = true.
Proof.
  revert m. induction keys as [|k keys IH]; intros m H; [exact H|].
  cbn [fold_left]. apply IH. now destruct m.
Qed.

Lemma chain_fails (keys : list string) (v : json) :
  at_path (map Key keys) v = None ->
  failed (fold_left sub keys (Ok v)) = true.
Proof.
  revert v. induction keys as [|k keys IH]; intros v H; [discriminate|].
  cbn [fold_left map at_path] in *.
  destruct v; try (now apply failed_fold_sub).
  unfold sub at 2. cbn [bind Monad_outcome getitem].
  destruct (lookup k items) as [y|]; [now apply IH|].
  now apply failed_fold_sub.
Qed.

(** A 2-day body that lacks one of the fields of ["current"] fails the
    first request. *)
Lemma missing_current_field_fails (p2 : json) (keys : list string) :
  In keys current_fields -> has p2 keys = false ->
  first_request_fails (HttpJson p2) = true.
Proof.
  intros Hin Hhas. cbn [first_request_fails]. apply orb_true_iff. left.
  assert (F : failed (fold_left sub keys (Ok p2)) = true).
  { apply chain_fails. unfold has in Hhas.
    now destruct (at_path (map Key keys) p2). }
  unfold current_fields in Hin. cbn [In] in Hin.
  repeat destruct Hin as [<-|Hin]; try contradiction;
    cbn [fold_left] in F; unfold current_of; cbn [bind Monad_outcome];
    repeat match goal with
      | |- failed (match ?m with Ok _ => _ | Exc _ => _ end) = true =>
          destruct m; [try discriminate F | reflexivity]
      end.
Qed.

(** A body without ["forecast"]["forecastday"], such as the error body of
    a 4xx answer, fails either request. *)
Lemma missing_forecast_fails (body : json) :
  at_path [Key "forecast"; Key "forecastday"] body = None ->
  first_request_fails (HttpJson body) = true
  /\ second_request_fails (HttpJson body) = true.
Proof.
  intros H. pose proof (chain_fails ["forecast"; "forecastday"] body H) as F.
  cbn [fold_left] in F. cbn [first_request_fails second_request_fails].
  assert (Hh : failed (hourly_of body) = true).
  { unfold hourly_of.
    destruct (Ok body !! "forecast" !! "forecastday"); [discriminate|].
    reflexivity. }
  assert (Hd : failed (daily_of body) = true).
  { unfold daily_of.
    destruct (Ok body !! "forecast" !! "forecastday"); [discriminate|].
    reflexivity. }
  rewrite Hh, Hd. split; [apply orb_true_r | reflexivity].
Qed.

(** A body of the documented shape fails neither. *)
Lemma documented_shape_succeeds (body : json) :
  documented_shape body = true ->
  first_request_fails (HttpJson body) = false
  /\ second_request_fails (HttpJson body) = false.
Proof.
  intros S. cbn [first_request_fails second_request_fails].
  destruct (current_of_shape body S) as (cd & -> & _).
  destruct (hourly_of_shape body S) as (hs & -> & _).
  destruct (daily_of_shape body S) as (ds & -> & _).
  split; reflexivity.
Qed.

(** ** The fetcher *)

(** C1.  When both requests are answered with bodies of the documented
    shape, [load_weather_data] issues exactly the two requests and returns
    a current-conditions dict whose temperature, feels-like temperature,
    humidity, condition, wind speed, sunrise and sunset are the fields the
    2-day body holds at the corresponding paths, together with an hourly
    frame that has as many rows as the "hour" arrays of all forecast days
    of the 2-day body have elements. *)
Theorem fetch_fields_verbatim (w : world) (city : string) (api_key : json)
    (p2 p10 : json) :
  net w (url_48hr city api_key) = HttpJson p2 ->
  net w (url_10day city api_key) = HttpJson p10 ->
  documented_shape p2 = true ->
  documented_shape p10 = true ->
  exists cd hourly daily,
    load_weather_data w city api_key
    = (Ok (Some cd, hourly, daily),
       [HttpGet (url_48hr city api_key); HttpGet (url_10day city api_key)])
    /\ at_path [Key "current"; Key "temp_c"] p2 = Some (temperature cd)
    /\ at_path [Key "current"; Key "feelslike_c"] p2 = Some (feels_like cd)
    /\ at_path [Key "current"; Key "humidity"] p2 = Some (humidity cd)
    /\ at_path [Key "current"; Key "condition"; Key "text"] p2
       = Some (condition cd)
    /\ at_path [Key "current"; Key "wind_kph"] p2 = Some (wind_speed cd)
    /\ at_path [Key "forecast"; Key "forecastday"; Index 0; Key "astro";
                Key "sunrise"] p2 = Some (sunrise cd)
    /\ at_path [Key "forecast"; Key "forecastday"; Index 0; Key "astro";
                Key "sunset"] p2 = Some (sunset cd)
    /\ List.length hourly
       = list_sum (map (fun day => List.length (hours day))
                     (forecast_days p2)).
Proof.
  intros N1 N2 S2 S10.
  destruct (current_of_shape p2 S2) as (cd & Hc & Hfrom).
  destruct (hourly_of_shape p2 S2) as (hs & Hh & Hrows).
  destruct (daily_of_shape p10 S10) as (ds & Hd & _).
  exists cd, hs, ds.
  split; [now apply (load_weather_data_ok w city api_key p2 p10)|].
  destruct Hfrom as (F1 & F2 & F3 & F4 & F5 & F6 & F7 & _).
  repeat (split; [assumption|]).
  rewrite <- (Forall2_length Hrows). apply length_flat_map.
Qed.

(** C2.  When the 2-day request succeeds and the 10-day request fails
    ([requests.get] raises, the body is not JSON, or building the daily
    rows raises), both requests have been issued, one error is reported,
    and [load_weather_data] returns [None] with two empty frames: the dict
    and the hourly rows already built are dropped. *)
Theorem second_failure_discards_first (w : world) (city : string)
    (api_key : json) :
  first_request_fails (net w (url_48hr city api_key)) = false ->
  second_request_fails (net w (url_10day city api_key)) = true ->
  exists e,
    load_weather_data w city api_key
    = (Ok (None, [], []),
       [HttpGet (url_48hr city api_key); HttpGet (url_10day city api_key);
        StError (ErrorLoadingData e)]).
Proof.
  intros F1 F2.
  destruct (load_weather_data_second_fails w city api_key F1 F2) as (e & H).
  now exists e.
Qed.

(** C3.  When the 2-day request fails ([requests.get] raises, the body is
    not JSON, or building the dict or the hourly rows from it raises),
    [load_weather_data] reports one error and returns [None] with two empty
    frames; the 2-day request is the only request issued, so the 10-day
    request never is. *)
Theorem first_failure_skips_second (w : world) (city : string)
    (api_key : json) :
  first_request_fails (net w (url_48hr city api_key)) = true ->
  (exists e,
     load_weather_data w city api_key
     = (Ok (None, [], []),
        [HttpGet (url_48hr city api_key); StError (ErrorLoadingData e)]))
  /\ requests (snd (load_weather_data w city api_key))
     = [url_48hr city api_key]
  /\ ~ In (HttpGet (url_10day city api_key))
         (snd (load_weather_data w city api_key)).
Proof.
  intros F.
  destruct (load_weather_data_first_fails w city api_key F) as (e & H).
  assert (R : requests (snd (load_weather_data w city api_key))
              = [url_48hr city api_key]).
  { rewrite H. apply (requests_failure_run [url_48hr city api_key]). }
  split; [now exists e|]. split; [exact R|].
  intros Hin. apply In_HttpGet_requests in Hin. rewrite R in Hin.
  destruct Hin as [Heq|[]]. now apply (urls_differ city api_key).
Qed.

(** C10.  A 2-day body whose ["current"] object has every field but whose
    ["forecastday"] array is empty makes [load_weather_data] fail: reading
    the sunrise indexes day 0 and raises [IndexError], the error is
    reported, [None] and two empty frames are returned, and the 2-day
    request is the only request issued. *)
Theorem empty_forecast_is_fetch_failure (w : world) (city : string)
    (api_key : json) (p2 : json) :
  net w (url_48hr city api_key) = HttpJson p2 ->
  forallb (has p2) current_fields = true ->
  at_path [Key "forecast"; Key "forecastday"] p2 = Some (JArr []) ->
  current_of p2 = Exc IndexError
  /\ load_weather_data w city api_key
     = (Ok (None, [], []),
        [HttpGet (url_48hr city api_key);
         StError (ErrorLoadingData IndexError)])
  /\ requests (snd (load_weather_data w city api_key))
     = [url_48hr city api_key]
  /\ ~ In (HttpGet (url_10day city api_key))
         (snd (load_weather_data w city api_key)).
Proof.
  intros N1 Hcur E.
  assert (Hc : current_of p2 = Exc IndexError).
  { unfold current_fields in Hcur. cbn [forallb] in Hcur. has_facts.
    unfold current_of.
    repeat match goal with
      | F : at_path [Key "current"; Key _] _ = Some _ |- _ =>
          rewrite (chain2 _ _ _ _ F); clear F
      | F : at_path [Key "current"; Key _; Key _] _ = Some _ |- _ =>
          rewrite (chain3 _ _ _ _ _ F); clear F
      end.
    rewrite (chain2 _ _ _ _ E). reflexivity. }
  assert (L : load_weather_data w city api_key
              = failure_run [HttpGet (url_48hr city api_key)] IndexError).
  { unfold load_weather_data, get_json. rewrite N1. run. rewrite Hc.
    reflexivity. }
  assert (R : requests (snd (load_weather_data w city api_key))
              = [url_48hr city api_key]).
  { rewrite L. apply (requests_failure_run [url_48hr city api_key]). }
  split; [exact Hc|]. split; [exact L|]. split; [exact R|].
  intros Hin. apply In_HttpGet_requests in Hin. rewrite R in Hin.
  destruct Hin as [Heq|[]]. now apply (urls_differ city api_key).
Qed.

Lemma hourly_from_keeps (hour : json) (r : hourly_row) :
  hourly_from hour r -> hourly_keeps hour r.
Proof.
  intros (H1 & H2 & H3 & H4 & H5 & H6 & H7).
  unfold hourly_keeps, kept.
  repeat (split; [eexists; split; [eassumption | reflexivity]|]).
  exact H7.
Qed.

Lemma daily_from_keeps (day : json) (r : daily_row) :
  daily_from day r -> daily_keeps day r.
Proof.
  intros (H1 & H2 & H3 & H4 & H5 & H6 & H7).
  unfold daily_keeps, kept.
  repeat (split; [eexists; split; [eassumption | reflexivity]|]).
  exact H7.
Qed.

(** C6.  When the 10-day body has the documented shape with exactly 10
    forecast days (and the 2-day request succeeded), the daily frame
    returned has exactly 10 rows, and row [i] stands for the [i]-th element
    of ["forecastday"]: it has that day's icon with the prefix, and every
    cell read from a string of that day (its date, condition, sunrise,
    sunset) is that string. *)
Theorem ten_days_in_order (w : world) (city : string) (api_key : json)
    (p10 : json) :
  first_request_fails (net w (url_48hr city api_key)) = false ->
  net w (url_10day city api_key) = HttpJson p10 ->
  documented_shape p10 = true ->
  List.length (forecast_days p10) = 10 ->
  exists cd hourly daily,
    fst (load_weather_data w city api_key) = Ok (Some cd, hourly, daily)
    /\ List.length daily = 10
    /\ forall i day,
         nth_error (forecast_days p10) i = Some day ->
         exists r, nth_error daily i = Some r /\ daily_keeps day r.
Proof.
  intros F1 N2 S10 Hlen.
  destruct (first_request_succeeds _ F1) as (p2 & cd & hs & N1 & Hc & Hh).
  destruct (daily_of_shape p10 S10) as (ds & Hd & Hrows).
  exists cd, hs, ds.
  rewrite (load_weather_data_ok w city api_key p2 p10 cd hs ds N1 N2 Hc Hh Hd).
  split; [reflexivity|].
  split; [now rewrite <- (Forall2_length Hrows)|].
  apply Forall2_nth_error_l.
  eapply Forall2_impl; [|exact Hrows]. apply daily_from_keeps.
Qed.

(** C7.  When the 2-day body has the documented shape (and the 10-day
    request succeeded), the hourly frame returned lists one row per hour,
    day after day in the order of ["forecastday"] and, within a day, in the
    order of its ["hour"] array: each row has the icon of its hour with the
    prefix, and every cell read from a string of that hour (its time, its
    condition) is that string. *)
Theorem hourly_rows_flatten_in_order (w : world) (city : string)
    (api_key : json) (p2 : json) :
  net w (url_48hr city api_key) = HttpJson p2 ->
  documented_shape p2 = true ->
  second_request_fails (net w (url_10day city api_key)) = false ->
  exists cd hourly daily,
    fst (load_weather_data w city api_key) = Ok (Some cd, hourly, daily)
    /\ Forall2 hourly_keeps (flat_map hours (forecast_days p2)) hourly.
Proof.
  intros N1 S2 F2.
  destruct (current_of_shape p2 S2) as (cd & Hc & _).
  destruct (hourly_of_shape p2 S2) as (hs & Hh & Hrows).
  destruct (net w (url_10day city api_key)) as [| |p10] eqn:N2;
    try discriminate.
  cbn [second_request_fails] in F2.
  destruct (daily_of p10) as [ds|] eqn:Hd; [|discriminate].
  exists cd, hs, ds.
  rewrite (load_weather_data_ok w city api_key p2 p10 cd hs ds N1 N2 Hc Hh Hd).
  split; [reflexivity|].
  eapply Forall2_impl; [|exact Hrows]. apply hourly_from_keeps.
Qed.

(** ** The credential *)

Lemma load_api_key_run (w : world) :
  load_api_key w
  = match config_file w with
    | FileAbsent =>
        (Ok JNull,
         [OpenFile "config.json";
          StError (Literal "API key configuration file not found.")])
    | FileUnreadable => (Exc PermissionError, [OpenFile "config.json"])
    | FileMalformed => (Exc JSONDecodeError, [OpenFile "config.json"])
    | FileJson config =>
        (getitem config "api_key", [OpenFile "config.json"])
    end.
Proof.
  unfold load_api_key.
  destruct (config_file w) as [| | |config]; try reflexivity. cbn.
  destruct (getitem config "api_key") as [v|e] eqn:G; [reflexivity|].
  apply raises_getitem in G. destruct e; try discriminate G; reflexivity.
Qed.

(** C4.  When [config.json] is absent, [load_api_key] reports the missing
    configuration and returns [None]; [main] then stops the script, and no
    HTTP request is issued: [load_weather_data] is never reached. *)
Theorem missing_config_halts (w : world) :
  config_file w = FileAbsent ->
  load_api_key w
  = (Ok JNull,
     [OpenFile "config.json";
      StError (Literal "API key configuration file not found.")])
  /\ main w
     = (Exc StopException,
        [StTitle "Weather Data Viewer"; OpenFile "config.json";
         StError (Literal "API key configuration file not found.");
         StStop])
  /\ requests (snd (main w)) = [].
Proof.
  intros F.
  assert (L : load_api_key w
              = (Ok JNull,
                 [OpenFile "config.json";
                  StError
                    (Literal "API key configuration file not found.")])).
  { unfold load_api_key. rewrite F. reflexivity. }
  assert (Hm : main w
               = (Exc StopException,
                  [StTitle "Weather Data Viewer"; OpenFile "config.json";
                   StError
                     (Literal "API key configuration file not found.");
                   StStop])).
  { unfold main. rewrite L. reflexivity. }
  split; [exact L|]. split; [exact Hm|]. rewrite Hm. reflexivity.
Qed.

(** C9.  [load_api_key] reports the missing configuration only when the
    file is absent.  When the file is unreadable, is not JSON, or holds a
    value without the key ["api_key"], nothing is reported and the
    exception leaves [load_api_key]: no [None] is returned in its place. *)
Theorem only_missing_file_is_handled (w : world) :
  ((exists msg, In (StError msg) (snd (load_api_key w)))
   <-> config_file w = FileAbsent)
  /\ (config_file w = FileUnreadable ->
      load_api_key w = (Exc PermissionError, [OpenFile "config.json"]))
  /\ (config_file w = FileMalformed ->
      load_api_key w = (Exc JSONDecodeError, [OpenFile "config.json"]))
  /\ (forall config,
        config_file w = FileJson config ->
        at_path [Key "api_key"] config = None ->
        exists e, lookup_error e = true
                  /\ load_api_key w = (Exc e, [OpenFile "config.json"])).
Proof.
  rewrite load_api_key_run. repeat split.
  - intros (msg & Hin). revert Hin.
    destruct (config_file w) as [| | |config]; cbn [snd].
    + reflexivity.
    + intros [|[]]; discriminate.
    + intros [|[]]; discriminate.
    + intros [|[]]; discriminate.
  - intros ->. eexists. right. left. reflexivity.
  - intros ->. reflexivity.
  - intros ->. reflexivity.
  - intros config -> Hnone.
    destruct (getitem config "api_key") as [v|e] eqn:G.
    + exfalso. unfold getitem in G. cbn [at_path] in Hnone.
      destruct config; try discriminate.
      destruct (lookup "api_key" items); discriminate.
    + exists e. split; [exact (raises_getitem config "api_key" e G)|].
      reflexivity.
Qed.

(** ** The humidity chart *)

(** *** Binary64 rounding

    [100 - h] and the sum of the two chart values are binary64 operations
    when the humidity is a float.  The lemmas below read [binary_round] as
    the rounding [rne] of the mantissa and show that the float nearest to
    [h + (100 - h)] is [100.0] whenever [0 <= h <= 100]. *)

Section Binary64.

Local Open Scope Z_scope.

Lemma digits2_size (p : positive) : digits2_pos p = Pos.size p.
Proof. induction p; simpl; congruence. Qed.

Lemma digits_bounds (p : positive) :
  2 ^ (Zpos (digits2_pos p) - 1) <= Zpos p < 2 ^ Zpos (digits2_pos p).
Proof.
  rewrite digits2_size. split.
  - pose proof (Pos.size_le p) as H.
    apply Pos2Z.pos_le_pos in H. rewrite Pos2Z.inj_pow in H.
    replace (Zpos (Pos.size p)) with (Z.succ (Zpos (Pos.size p) - 1)) in H
      by lia.
    rewrite Z.pow_succ_r in H by lia.
    change (Zpos p~0) with (2 * Zpos p) in H. lia.
  - pose proof (Pos.size_gt p) as H.
    apply Pos2Z.pos_lt_pos in H. now rewrite Pos2Z.inj_pow in H.
Qed.

Lemma digits_unique (p : positive) (k : Z) :
  2 ^ (k - 1) <= Zpos p < 2 ^ k -> Zpos (digits2_pos p) = k.
Proof.
  intros [Hlo Hhi]. destruct (digits_bounds p) as [Dlo Dhi].
  set (d := Zpos (digits2_pos p)) in *.
  assert (0 < d) by (unfold d; lia).
  destruct (Z.lt_trichotomy d k) as [Hlt|[Heq|Hgt]]; [|exact Heq|].
  - assert (2 ^ d <= 2 ^ (k - 1)) by (apply Z.pow_le_mono_r; lia). lia.
  - assert (k <= 0 \/ 0 < k) as [Hk|Hk] by lia.
    + assert (2 ^ k <= 2 ^ 0) by (apply Z.pow_le_mono_r_iff; lia).
      simpl in *. lia.
    + assert (2 ^ k <= 2 ^ (d - 1)) by (apply Z.pow_le_mono_r; lia). lia.
Qed.

Lemma iter_xO (p d : positive) :
  Zpos (Pos.iter xO p d) = Zpos p * 2 ^ Zpos d.
Proof.
  induction d as [|d IH] using Pos.peano_ind.
  - simpl. lia.
  - rewrite Pos.iter_succ, Pos2Z.inj_succ, Z.pow_succ_r by lia.
    change (Zpos (Pos.iter xO p d)~0) with (2 * Zpos (Pos.iter xO p d)).
    rewrite IH. lia.
Qed.

Lemma shl_align_spec (mx : positive) (ex ez : Z) :
  ez <= ex ->
  Zpos (fst (shl_align mx ex ez)) = Zpos mx * 2 ^ (ex - ez)
  /\ snd (shl_align mx ex ez) = ez.
Proof.
  intros H. unfold shl_align.
  destruct (ez - ex) as [|d|d] eqn:E; try lia.
  - assert (ex = ez) as -> by lia. rewrite Z.sub_diag. simpl. lia.
  - assert (ex - ez = Zpos d) as -> by lia. simpl fst. simpl snd.
    split; [apply iter_xO | reflexivity].
Qed.

Lemma iter_pos_nat {A : Type} (f : A -> A) (p : positive) (x : A) :
  iter_pos f p x = Nat.iter (Pos.to_nat p) f x.
Proof.
  revert x. induction p as [p IH|p IH|]; intros x; simpl iter_pos.
  - rewrite !IH, Pos2Nat.inj_xI. 
    replace (S (2 * Pos.to_nat p))%nat
      with (Pos.to_nat p + (Pos.to_nat p + 1))%nat by lia.
    rewrite !Nat.iter_add. reflexivity.
  - rewrite !IH, Pos2Nat.inj_xO.
    replace (2 * Pos.to_nat p)%nat with (Pos.to_nat p + Pos.to_nat p)%nat
      by lia.
    now rewrite Nat.iter_add.
  - reflexivity.
Qed.

Lemma shr_1_nonneg (m : Z) (r s : bool) :
  0 <= m ->
  shr_1 (Build_shr_record m r s)
  = Build_shr_record (m / 2) (Z.odd m) (r || s).
Proof.
  intros H. destruct m as [|p|p]; [reflexivity| |lia].
  destruct p as [p|p|]; simpl shr_1.
  - replace (Zpos p~1 / 2) with (Zpos p); [reflexivity|].
    change (Zpos p~1) with (2 * Zpos p + 1).
    apply Z.div_unique with 1; lia.
  - replace (Zpos p~0 / 2) with (Zpos p); [reflexivity|].
    change (Zpos p~0) with (2 * Zpos p).
    apply Z.div_unique with 0; lia.
  - reflexivity.
Qed.

Lemma odd_or_mod (m h : Z) :
  0 <= m -> 0 < h ->
  Z.odd (m / h) || negb (m mod h =? 0) = negb (m mod (h * 2) =? 0).
Proof.
  intros Hm Hh. rewrite Z.rem_mul_r by lia.
  pose proof (Z.mod_pos_bound m h Hh) as B.
  pose proof (Z.mod_pos_bound (m / h) 2 ltac:(lia)) as B2.
  rewrite (Zmod_odd (m / h)).
  destruct (Z.odd (m / h));
    destruct (Z.eqb_spec (m mod h) 0) as [E|E];
    match goal with
    | |- context [?x =? 0] => destruct (Z.eqb_spec x 0) as [E'|E']
    end;
    cbn; try reflexivity; try nia.
Qed.

Lemma shr_steps (n : nat) (m : Z) :
  0 <= m ->
  Nat.iter (S n) shr_1 (Build_shr_record m false false)
  = Build_shr_record (m / 2 ^ Z.of_nat (S n))
      (Z.odd (m / 2 ^ Z.of_nat n))
      (negb (m mod 2 ^ Z.of_nat n =? 0)).
Proof.
  intros Hm. induction n as [|n IH].
  - change (Nat.iter 1 shr_1 ?x) with (shr_1 x).
    rewrite shr_1_nonneg by lia.
    change (2 ^ Z.of_nat 1) with 2. change (2 ^ Z.of_nat 0) with 1.
    rewrite Z.div_1_r, Z.mod_1_r. reflexivity.
  - change (Nat.iter (S (S n)) shr_1 ?x) with (shr_1 (Nat.iter (S n) shr_1 x)).
    rewrite IH.
    assert (P : 0 < 2 ^ Z.of_nat n) by (apply Z.pow_pos_nonneg; lia).
    assert (E1 : 2 ^ Z.of_nat (S n) = 2 ^ Z.of_nat n * 2).
    { rewrite Nat2Z.inj_succ, Z.pow_succ_r by lia. lia. }
    assert (E2 : 2 ^ Z.of_nat (S (S n)) = 2 ^ Z.of_nat (S n) * 2).
    { rewrite (Nat2Z.inj_succ (S n)), Z.pow_succ_r by lia. lia. }
    rewrite shr_1_nonneg by (apply Z.div_pos; lia).
    rewrite E2, Z.div_div by lia.
    rewrite odd_or_mod by lia. rewrite <- E1. reflexivity.
Qed.

(** Round to nearest, ties to even, of [z / 2 ^ n]. *)
Lemma rne_err (z n : Z) :
  0 <= n -> 2 * Z.abs (rne z n * 2 ^ n - z) <= 2 ^ n.
Proof.
  intros Hn. unfold rne.
  assert (P : 0 < 2 ^ n) by (apply Z.pow_pos_nonneg; lia).
  pose proof (Z.div_mod z (2 ^ n) ltac:(lia)) as E.
  pose proof (Z.mod_pos_bound z (2 ^ n) P) as B.
  set (q := z / 2 ^ n) in *. set (r := z mod 2 ^ n) in *.
  set (p := 2 ^ n) in *.
  destruct (Z.compare_spec (2 * r) p) as [C|C|C];
    [destruct (Z.even q)|..]; nia.
Qed.

Lemma rne_even (z n M : Z) :
  0 <= n -> Z.even M = true ->
  2 * Z.abs (M * 2 ^ n - z) <= 2 ^ n -> rne z n = M.
Proof.
  intros Hn Hev HM. unfold rne.
  assert (P : 0 < 2 ^ n) by (apply Z.pow_pos_nonneg; lia).
  pose proof (Z.div_mod z (2 ^ n) ltac:(lia)) as E.
  pose proof (Z.mod_pos_bound z (2 ^ n) P) as B.
  set (q := z / 2 ^ n) in *. set (r := z mod 2 ^ n) in *.
  set (p := 2 ^ n) in *.
  destruct (Z.compare_spec (2 * r) p) as [C|C|C].
  - assert (M = q \/ M = q + 1) as [->| ->] by nia.
    + now rewrite Hev.
    + rewrite Z.even_add in Hev. destruct (Z.even q); [discriminate|].
      reflexivity.
  - nia.
  - nia.
Qed.

Lemma rne_range (z n a : Z) :
  0 <= n -> 0 <= a ->
  2 ^ (a + n) <= z < 2 ^ (a + 1 + n) ->
  2 ^ a <= rne z n <= 2 ^ (a + 1).
Proof.
  intros Hn Ha [Hlo Hhi]. unfold rne.
  assert (P : 0 < 2 ^ n) by (apply Z.pow_pos_nonneg; lia).
  rewrite Z.pow_add_r in Hlo, Hhi by lia.
  assert (Q : 2 ^ a <= z / 2 ^ n < 2 ^ (a + 1)).
  { split.
    - apply Z.div_le_lower_bound; lia.
    - apply Z.div_lt_upper_bound; lia. }
  destruct (2 * (z mod 2 ^ n) ?= 2 ^ n); [destruct (Z.even _)|..]; lia.
Qed.

Lemma shr_round (z : Z) (p : positive) :
  0 <= z ->
  round_nearest_even
    (shr_m (iter_pos shr_1 p (Build_shr_record z false false)))
    (loc_of_shr_record (iter_pos shr_1 p (Build_shr_record z false false)))
  = rne z (Zpos p).
Proof.
  intros Hz. rewrite iter_pos_nat.
  destruct (Pos2Nat.is_succ p) as (k & Hk). rewrite Hk.
  rewrite shr_steps by exact Hz.
  assert (Ep : Zpos p = Z.of_nat (S k)) by lia.
  rewrite Ep. unfold rne. cbn [shr_m loc_of_shr_record].
  assert (P : 0 < 2 ^ Z.of_nat k) by (apply Z.pow_pos_nonneg; lia).
  assert (E1 : 2 ^ Z.of_nat (S k) = 2 ^ Z.of_nat k * 2).
  { rewrite Nat2Z.inj_succ, Z.pow_succ_r by lia. lia. }
  rewrite E1, Z.rem_mul_r by lia. rewrite (Zmod_odd (z / 2 ^ Z.of_nat k)).
  pose proof (Z.mod_pos_bound z (2 ^ Z.of_nat k) P) as B.
  set (h := 2 ^ Z.of_nat k) in *. set (u := z mod h) in *.
  destruct (Z.odd (z / h)); destruct (Z.eqb_spec u 0) as [E|E]; cbn [negb];
    match goal with
    | |- context [?a ?= ?b] => destruct (Z.compare_spec a b) as [C|C|C]
    end; cbn [round_nearest_even]; try reflexivity; try lia.
Qed.

Lemma fexp_normal (x : Z) : -1021 <= x -> fexp prec emax x = x - 53.
Proof. unfold fexp, emin, prec, emax. lia. Qed.

Lemma binary_round_aux_round (mx : positive) (ex : Z) (p : positive) :
  Zpos (digits2_pos mx) = 53 + Zpos p ->
  -1074 <= ex + Zpos p <= 970 ->
  binary_round_aux prec emax false (Zpos mx) ex loc_Exact
  = if rne (Zpos mx) (Zpos p) <? 2 ^ 53
    then S754_finite false (Z.to_pos (rne (Zpos mx) (Zpos p))) (ex + Zpos p)
    else S754_finite false (Z.to_pos (2 ^ 52)) (ex + Zpos p + 1).
Proof.
  intros Hd He. unfold binary_round_aux, shr_fexp.
  cbn [Zdigits2 shr_record_of_loc]. rewrite Hd.
  replace (fexp prec emax (53 + Zpos p + ex) - ex) with (Zpos p)
    by (rewrite fexp_normal; lia).
  cbn [shr]. rewrite shr_round by lia.
  pose proof (digits_bounds mx) as Dm. rewrite Hd in Dm.
  assert (R : 2 ^ 52 <= rne (Zpos mx) (Zpos p) <= 2 ^ (52 + 1)).
  { apply rne_range; try lia.
    replace (52 + Zpos p) with (53 + Zpos p - 1) by lia.
    replace (52 + 1 + Zpos p) with (53 + Zpos p) by lia. exact Dm. }
  set (Q := rne (Zpos mx) (Zpos p)) in *.
  destruct (Z.ltb_spec Q (2 ^ 53)) as [L|L].
  - destruct Q as [|q|q] eqn:EQ; try (cbn in R; lia).
    cbn [Zdigits2].
    rewrite (digits_unique q 53) by (cbn in *; lia).
    replace (fexp prec emax (53 + (ex + Zpos p)) - (ex + Zpos p)) with 0
      by (rewrite fexp_normal; lia).
    cbn [shr shr_m]. cbn [Z.to_pos].
    replace (ex + Zpos p <=? emax - prec) with true; [reflexivity|].
    symmetry. apply Z.leb_le. unfold emax, prec. lia.
  - assert (EQ : Q = 2 ^ 53) by (change (2 ^ (52 + 1)) with (2 ^ 53) in R; lia).
    rewrite EQ. cbn [Z.pow Z.pow_pos Pos.iter Z.mul Pos.mul Zdigits2 digits2_pos Pos.succ].
    replace (fexp prec emax (54 + (ex + Zpos p)) - (ex + Zpos p)) with 1
      by (rewrite fexp_normal; lia).
    cbn.
    match goal with
    | |- context [?a <=? ?b] => destruct (Z.leb_spec a b); [reflexivity | lia]
    end.
Qed.

Lemma binary_round_round (mx : positive) (ex : Z) (p : positive) :
  Zpos (digits2_pos mx) = 53 + Zpos p ->
  -1074 <= ex + Zpos p <= 970 ->
  binary_round prec emax false mx ex
  = if rne (Zpos mx) (Zpos p) <? 2 ^ 53
    then S754_finite false (Z.to_pos (rne (Zpos mx) (Zpos p))) (ex + Zpos p)
    else S754_finite false (Z.to_pos (2 ^ 52)) (ex + Zpos p + 1).
Proof.
  intros Hd He. unfold binary_round. rewrite Hd.
  replace (fexp prec emax (53 + Zpos p + ex)) with (ex + Zpos p)
    by (rewrite fexp_normal; lia).
  unfold shl_align. replace (ex + Zpos p - ex) with (Zpos p) by lia.
  now apply binary_round_aux_round.
Qed.

Lemma pow2_pos (n : Z) : 0 <= n -> 0 < 2 ^ n.
Proof. intros H. apply Z.pow_pos_nonneg; lia. Qed.

Lemma binary_round_exact (mx : positive) (ex : Z) :
  fexp prec emax (Zpos (digits2_pos mx) + ex) <= ex ->
  fexp prec emax (Zpos (digits2_pos mx) + ex) <= 971 ->
  binary_round prec emax false mx ex
  = S754_finite false
      (Z.to_pos
         (Zpos mx * 2 ^ (ex - fexp prec emax (Zpos (digits2_pos mx) + ex))))
      (fexp prec emax (Zpos (digits2_pos mx) + ex)).
Proof.
  intros Hle Hmax. unfold binary_round.
  set (d := Zpos (digits2_pos mx)) in *.
  set (e' := fexp prec emax (d + ex)) in *.
  destruct (shl_align_spec mx ex e' Hle) as [Hm He].
  destruct (shl_align mx ex e') as [mz ez]. cbn [fst snd] in Hm, He.
  subst ez. rewrite <- Hm. cbn [Z.to_pos].
  assert (Dz : Zpos (digits2_pos mz) = d + (ex - e')).
  { apply digits_unique. rewrite Hm.
    pose proof (digits_bounds mx) as B. fold d in B.
    pose proof (pow2_pos (ex - e') ltac:(lia)) as P.
    replace (d + (ex - e') - 1) with ((d - 1) + (ex - e')) by lia.
    assert (0 < d) by (unfold d; lia).
    rewrite !Z.pow_add_r by lia. nia. }
  unfold binary_round_aux, shr_fexp. cbn [Zdigits2 shr_record_of_loc].
  rewrite Dz. replace (d + (ex - e') + e') with (d + ex) by lia.
  fold e'. rewrite Z.sub_diag. cbn [shr shr_m loc_of_shr_record
                                   round_nearest_even Zdigits2].
  rewrite Dz. replace (d + (ex - e') + e') with (d + ex) by lia.
  fold e'. rewrite Z.sub_diag. cbn [shr shr_m].
  destruct (Z.leb_spec e' (emax - prec)); [reflexivity|].
  unfold emax, prec in *. lia.
Qed.

Lemma round_to_100 (total : positive) (ez j : Z) :
  0 <= j -> ez + j = -46 ->
  2 * Z.abs (Zpos M100 * 2 ^ j - Zpos total) <= 2 ^ j ->
  binary_round prec emax false total ez = f100.
Proof.
  intros Hj He Hnear.
  pose proof (pow2_pos j Hj) as P.
  assert (Dz : Zpos (digits2_pos total) = 53 + j).
  { apply digits_unique.
    replace (53 + j - 1) with (52 + j) by lia.
    rewrite !Z.pow_add_r by lia.
    change (2 ^ 52) with 4503599627370496.
    change (2 ^ 53) with 9007199254740992.
    unfold M100 in Hnear. lia. }
  destruct j as [|p|p]; [| |lia].
  - change (2 ^ 0) with 1 in Hnear.
    assert (Etotal : total = M100).
    { apply Pos2Z.inj. lia. }
    subst total. rewrite binary_round_exact.
    + rewrite Dz. replace (53 + 0 + ez) with 7 by lia.
      replace ez with (-46) by lia. reflexivity.
    + rewrite Dz. replace (53 + 0 + ez) with 7 by lia.
      replace ez with (-46) by lia. cbv. discriminate.
    + rewrite Dz. replace (53 + 0 + ez) with 7 by lia. cbv. discriminate.
  - rewrite (binary_round_round total ez p Dz) by lia.
    rewrite (rne_even (Zpos total) (Zpos p) (Zpos M100)).
    + replace (ez + Zpos p) with (-46) by lia. reflexivity.
    + lia.
    + reflexivity.
    + rewrite <- Z.abs_opp.
      replace (- (Zpos M100 * 2 ^ Zpos p - Zpos total))
        with (Zpos total - Zpos M100 * 2 ^ Zpos p) by lia.
      rewrite <- Z.abs_opp.
      replace (- (Zpos total - Zpos M100 * 2 ^ Zpos p))
        with (Zpos M100 * 2 ^ Zpos p - Zpos total) by lia.
      exact Hnear.
Qed.

Lemma SFadd_pos (m1 : positive) (e1 : Z) (m2 : positive) (e2 : Z) :
  SFadd prec emax (S754_finite false m1 e1) (S754_finite false m2 e2)
  = binary_round prec emax false
      (fst (shl_align m1 e1 (Z.min e1 e2)) + fst (shl_align m2 e2 (Z.min e1 e2)))%positive
      (Z.min e1 e2).
Proof. reflexivity. Qed.

Lemma SFsub_pos (m1 : positive) (e1 : Z) (m2 : positive) (e2 : Z) :
  SFsub prec emax (S754_finite false m1 e1) (S754_finite false m2 e2)
  = binary_normalize prec emax
      (Zpos (fst (shl_align m1 e1 (Z.min e1 e2)))
       - Zpos (fst (shl_align m2 e2 (Z.min e1 e2))))
      (Z.min e1 e2) false.
Proof. reflexivity. Qed.

Lemma fexp_max (x : Z) : fexp prec emax x = Z.max (x - 53) (-1074).
Proof. reflexivity. Qed.

Lemma add_to_100 (m : positive) (e : Z) (q : positive) (e2 : Z) :
  e <= -46 -> e2 <= -46 -> -1074 <= e -> -1074 <= e2 ->
  2 * Z.abs (Zpos M100 * 2 ^ (-46 - Z.min e e2)
             - (Zpos m * 2 ^ (e - Z.min e e2) + Zpos q * 2 ^ (e2 - Z.min e e2)))
    <= 2 ^ (-46 - Z.min e e2) ->
  SFadd prec emax (S754_finite false m e) (S754_finite false q e2) = f100.
Proof.
  intros He He2 Le Le2 Hnear. rewrite SFadd_pos.
  destruct (shl_align_spec m e (Z.min e e2)) as [A _]; [lia|].
  destruct (shl_align_spec q e2 (Z.min e e2)) as [B _]; [lia|].
  apply (round_to_100 _ _ (-46 - Z.min e e2)); [lia | lia |].
  rewrite Pos2Z.inj_add, A, B. exact Hnear.
Qed.

Lemma complement_finite (m : positive) (e : Z) :
  Zpos (digits2_pos m) <= 53 -> -1074 <= e -> e <= -46 ->
  (e = -46 -> Zpos m <= Zpos M100) ->
  SFadd prec emax (S754_finite false m e)
    (SFsub prec emax f100 (S754_finite false m e)) = f100.
Proof.
  intros Hdm Le He Hm.
  unfold f100 at 1. rewrite SFsub_pos.
  replace (Z.min (-46) e) with e by lia.
  destruct (shl_align_spec M100 (-46) e) as [A _]; [lia|].
  destruct (shl_align_spec m e e) as [B _]; [lia|].
  rewrite A, B. replace (e - e) with 0 by lia.
  change (2 ^ 0) with 1. rewrite Z.mul_1_r.
  set (k := -46 - e) in *.
  assert (Hk : 0 <= k) by (unfold k; lia).
  pose proof (pow2_pos k Hk) as Pk.
  pose proof (digits_bounds m) as [_ Um].
  assert (Um' : Zpos m < 2 ^ 53).
  { eapply Z.lt_le_trans; [exact Um|]. apply Z.pow_le_mono_r; lia. }
  change (2 ^ 53) with 9007199254740992 in Um'.
  assert (HD : 0 <= Zpos M100 * 2 ^ k - Zpos m).
  { destruct (Z.eq_dec k 0) as [K0|K0].
    - rewrite K0. change (2 ^ 0) with 1. unfold k in K0. lia.
    - assert (2 <= 2 ^ k).
      { change 2 with (2 ^ 1) at 1. apply Z.pow_le_mono_r; lia. }
      unfold M100. lia. }
  destruct (Zpos M100 * 2 ^ k - Zpos m) as [|d|d] eqn:ED; [| |lia].
  - change (binary_normalize prec emax 0 e false) with (S754_zero false).
    change (SFadd prec emax (S754_finite false m e) (S754_zero false))
      with (S754_finite false m e).
    destruct (Z.eq_dec k 0) as [K0|K0].
    + rewrite K0 in ED. change (2 ^ 0) with 1 in ED.
      assert (m = M100) by (apply Pos2Z.inj; lia). subst m.
      unfold f100. f_equal. unfold k in K0. lia.
    + assert (2 <= 2 ^ k).
      { change 2 with (2 ^ 1) at 1. apply Z.pow_le_mono_r; lia. }
      unfold M100 in ED. lia.
  - change (binary_normalize prec emax (Zpos d) e false)
      with (binary_round prec emax false d e).
    pose proof (digits_bounds d) as [Ld Ud].
    destruct (Z.le_gt_cases (Zpos (digits2_pos d)) 53) as [Small|Big].
    + rewrite binary_round_exact; rewrite fexp_max; [|lia|lia].
      set (e' := Z.max (Zpos (digits2_pos d) + e - 53) (-1074)).
      assert (He' : e' <= e) by (unfold e'; lia).
      assert (Le' : -1074 <= e') by (unfold e'; lia).
      pose proof (pow2_pos (e - e') ltac:(lia)) as Ps.
      apply add_to_100; try lia.
      replace (Z.min e e') with e' by lia.
      rewrite Z2Pos.id by lia.
      replace (e' - e') with 0 by lia. change (2 ^ 0) with 1.
      replace (-46 - e') with (k + (e - e')) by (unfold k; lia).
      rewrite Z.pow_add_r by lia.
      replace (Zpos M100 * (2 ^ k * 2 ^ (e - e')) -
               (Zpos m * 2 ^ (e - e') + Zpos d * 2 ^ (e - e') * 1))
        with ((Zpos M100 * 2 ^ k - Zpos m - Zpos d) * 2 ^ (e - e')) by ring.
      rewrite ED. replace (Zpos d - Zpos d) with 0 by lia.
      rewrite Z.mul_0_l. cbn [Z.abs Z.mul].
      apply Z.lt_le_incl, Z.mul_pos_pos; lia.
    + remember (Zpos (digits2_pos d) - 53) as n eqn:En.
      destruct n as [|p|p]; [lia| |lia].
      assert (Dd : Zpos (digits2_pos d) = 53 + Zpos p) by lia.
      rewrite Dd in Ld, Ud.
      assert (Hnk : Zpos p <= k).
      { assert (Hlt : 2 ^ (53 + Zpos p - 1) < 2 ^ (53 + k)).
        { eapply Z.le_lt_trans; [exact Ld|].
          rewrite Z.pow_add_r by lia.
          change (2 ^ 53) with 9007199254740992.
          unfold M100 in ED. lia. }
        apply Z.pow_lt_mono_r_iff in Hlt; lia. }
      pose proof (pow2_pos (Zpos p) ltac:(lia)) as Pp.
      assert (Ppk : 2 ^ Zpos p <= 2 ^ k) by (apply Z.pow_le_mono_r; lia).
      rewrite (binary_round_round d e p Dd) by (unfold k in Hnk; lia).
      pose proof (rne_err (Zpos d) (Zpos p) ltac:(lia)) as Herr.
      pose proof (rne_range (Zpos d) (Zpos p) 52 ltac:(lia) ltac:(lia)) as Hr.
      replace (52 + Zpos p) with (53 + Zpos p - 1) in Hr by lia.
      replace (52 + 1 + Zpos p) with (53 + Zpos p) in Hr by lia.
      specialize (Hr (conj Ld Ud)).
      change (2 ^ 52) with 4503599627370496 in *.
      change (2 ^ (52 + 1)) with 9007199254740992 in *.
      change (2 ^ 53) with 9007199254740992 in *.
      set (Q := rne (Zpos d) (Zpos p)) in *.
      destruct (Z.ltb_spec Q 9007199254740992) as [Qlt|Qge].
      * apply add_to_100; try (unfold k in Hnk; lia).
        replace (Z.min e (e + Zpos p)) with e by lia.
        rewrite Z2Pos.id by lia.
        replace (e - e) with 0 by lia. change (2 ^ 0) with 1.
        replace (e + Zpos p - e) with (Zpos p) by lia.
        fold k.
        replace (Zpos M100 * 2 ^ k - (Zpos m * 1 + Q * 2 ^ Zpos p))
          with (- (Q * 2 ^ Zpos p - Zpos d)) by lia.
        rewrite Z.abs_opp. lia.
      * assert (EQ : Q = 9007199254740992) by lia.
        assert (Hn1 : Zpos p + 1 <= k).
        { destruct (Z.eq_dec (Zpos p) k) as [Epk|]; [|lia].
          exfalso. rewrite EQ, Epk in Herr. unfold M100 in ED. lia. }
        apply add_to_100; try (unfold k in Hn1; lia).
        replace (Z.min e (e + Zpos p + 1)) with e by lia.
        replace (e - e) with 0 by lia. change (2 ^ 0) with 1.
        replace (e + Zpos p + 1 - e) with (Zpos p + 1) by lia.
        rewrite Z.pow_add_r by lia. change (2 ^ 1) with 2.
        fold k. rewrite EQ in Herr.
        change (Zpos (Z.to_pos 4503599627370496)) with 4503599627370496.
        replace (Zpos M100 * 2 ^ k -
                 (Zpos m * 1 + 4503599627370496 * (2 ^ Zpos p * 2)))
          with (- (9007199254740992 * 2 ^ Zpos p - Zpos d)) by lia.
        rewrite Z.abs_opp. lia.
Qed.

Lemma bounded_inv (m : positive) (e : Z) :
  bounded prec emax m e = true ->
  Zpos (digits2_pos m) <= 53 /\ -1074 <= e.
Proof.
  unfold bounded, canonical_mantissa. rewrite fexp_max.
  intros H. apply andb_true_iff in H. destruct H as [H _].
  apply Z.eqb_eq in H. lia.
Qed.

Lemma SFcompare_pos (m1 : positive) (e1 : Z) (m2 : positive) (e2 : Z) :
  SFcompare (S754_finite false m1 e1) (S754_finite false m2 e2)
  = Some match e1 ?= e2 with
         | Lt => Lt
         | Gt => Gt
         | Eq => Pos.compare m1 m2
         end.
Proof. reflexivity. Qed.

Lemma SFleb_100_inv (m : positive) (e : Z) :
  SFleb (S754_finite false m e) f100 = true ->
  e <= -46 /\ (e = -46 -> Zpos m <= Zpos M100).
Proof.
  unfold SFleb, f100. rewrite SFcompare_pos.
  destruct (Z.compare_spec e (-46)) as [E|E|E].
  - rewrite Pos2Z.inj_compare.
    destruct (Z.compare_spec (Zpos m) (Zpos M100)) as [C|C|C]; intros H;
      try discriminate; split; lia.
  - intros _. split; lia.
  - discriminate.
Qed.

Lemma complement_to_100 (f : spec_float) :
  valid_binary prec emax f = true ->
  SFleb (S754_zero false) f = true ->
  SFleb f f100 = true ->
  SFadd prec emax f (SFsub prec emax f100 f) = f100.
Proof.
  intros Hv H0 H100.
  destruct f as [s|s| |s m e].
  - reflexivity.
  - destruct s; discriminate.
  - discriminate.
  - destruct s; [discriminate|].
    apply bounded_inv in Hv. apply SFleb_100_inv in H100.
    apply complement_finite; tauto.
Qed.

End Binary64.

Lemma float_of_100 : float_of_int 100 = Ok f100.
Proof. vm_compute. reflexivity. Qed.

(** C8.  For any humidity [h] between 0 and 100 in the current-conditions
    dict -- an int, a bool or a float -- the values handed to [px.pie] are
    [h] and [100 - h], and [h + (100 - h)] is exactly 100: the int [100]
    for an int or a bool, the float [100.0] for a float, whatever the
    rounding of [100 - h].  For an int [h] the second value is the int
    [100 - h], between 0 and 100 as well. *)
Theorem humidity_pie_sums_to_100 (cd : current_data) :
  in_0_100 (humidity cd) = true ->
  exists remaining total,
    py_sub (JInt 100) (humidity cd) = Ok remaining
    /\ humidity_pie_values cd = Ok [humidity cd; remaining]
    /\ humidity_pie cd
       = Ok (Pie ["Humidity"; "Remaining"] [humidity cd; remaining]
               "Humidity Level (%)" hole_0_4)
    /\ py_add (humidity cd) remaining = Ok total
    /\ equals_100 total = true
    /\ (forall h, humidity cd = JInt h ->
          remaining = JInt (100 - h) /\ total = JInt 100
          /\ (h + (100 - h) = 100)%Z /\ (0 <= 100 - h <= 100)%Z)
    /\ (forall b, humidity cd = JBool b ->
          remaining = JInt (if b then 99 else 100) /\ total = JInt 100)
    /\ (forall f, humidity cd = JFloat f ->
          remaining = JFloat (SFsub prec emax f100 f)
          /\ total = JFloat f100).
Proof.
  unfold in_0_100, humidity_pie, humidity_pie_values.
  destruct (humidity cd) as [|b|h|f| | |] eqn:Hh; cbn [as_number];
    try discriminate; intros Hrange.
  - exists (JInt (if b then 99 else 100)), (JInt 100).
    destruct b; repeat split; try reflexivity; intros; try discriminate;
      match goal with E : JBool _ = JBool _ |- _ => injection E as <- end;
      reflexivity.
  - apply andb_true_iff in Hrange. destruct Hrange as [L U].
    apply Z.leb_le in L, U.
    exists (JInt (100 - h)), (JInt 100).
    assert (Hsum : py_add (JInt h) (JInt (100 - h)) = Ok (JInt 100)).
    { unfold py_add. cbn [as_number]. do 2 f_equal. lia. }
    repeat split; try reflexivity; try exact Hsum; intros; try discriminate;
      match goal with E : JInt _ = JInt _ |- _ => injection E as <- end;
      try reflexivity; lia.
  - apply andb_true_iff in Hrange. destruct Hrange as [Hrange U].
    apply andb_true_iff in Hrange. destruct Hrange as [V L].
    pose proof (complement_to_100 f V L U) as Hsum.
    exists (JFloat (SFsub prec emax f100 f)), (JFloat f100).
    assert (Hsub : py_sub (JInt 100) (JFloat f)
                   = Ok (JFloat (SFsub prec emax f100 f))).
    { unfold py_sub. cbn [as_number]. rewrite float_of_100. reflexivity. }
    rewrite Hsub.
    assert (Hadd : py_add (JFloat f) (JFloat (SFsub prec emax f100 f))
                   = Ok (JFloat f100)).
    { unfold py_add. cbn [as_number]. rewrite Hsum. reflexivity. }
    repeat split; try reflexivity; try exact Hadd; intros; try discriminate;
      match goal with E : JFloat _ = JFloat _ |- _ => injection E as <- end;
      reflexivity.
Qed.

(** The page hands that figure to [st.plotly_chart]. *)
Lemma show_current_charts_humidity (w : world) (city : string)
    (cd : current_data) (h : Z) :
  toolkit w (StImage (icon cd) 100) = None ->
  toolkit w (PlotlyChart (temp_gauge cd)) = None ->
  humidity cd = JInt h ->
  In (PlotlyChart (Pie ["Humidity"; "Remaining"] [JInt h; JInt (100 - h)]
                     "Humidity Level (%)" hole_0_4))
     (snd (show_current w city cd)).
Proof.
  intros Hi Hg Hh.
  unfold show_current, call, humidity_pie, humidity_pie_values.
  rewrite Hi, Hg, Hh. cbn -[Z.sub append py_str feels_like_line].
  repeat match goal with
    | |- context [toolkit w ?ev] =>
        destruct (toolkit w ev); cbn -[Z.sub append py_str feels_like_line]
    | |- context [feels_like_line cd] =>
        destruct (feels_like_line cd);
        cbn -[Z.sub append py_str feels_like_line]
    end;
    repeat (try (left; reflexivity); right).
Qed.

(** ** Icon URLs *)

Lemma append_length (a b : string) :
  String.length (a ++ b) = String.length a + String.length b.
Proof.
  induction a as [|c a IH]; cbn; [reflexivity | now rewrite IH].
Qed.

(** C5, as amended.  The icon URL is the fixed prefix ["http:"] followed by
    the partial path, whatever the path; on ["//cdn.example/icon.png"] it
    is ["http://cdn.example/icon.png"].  The transformation is injective
    and adds five characters, so it is not idempotent: applied to its own
    result it yields a second prefix, never the same string. *)
Theorem icon_url_prepends_scheme :
  (forall path, icon_url (JStr path) = "http:" ++ path)
  /\ (forall path, icon_url (JStr path) = prefix_scheme path)
  /\ prefix_scheme "//cdn.example/icon.png" = "http://cdn.example/icon.png"
  /\ (forall p q, prefix_scheme p = prefix_scheme q -> p = q)
  /\ (forall path,
        String.length (prefix_scheme path) = 5 + String.length path)
  /\ (forall path,
        prefix_scheme (prefix_scheme path) = "http:http:" ++ path)
  /\ (forall path, prefix_scheme (prefix_scheme path) <> prefix_scheme path).
Proof.
  assert (Hlen : forall path,
             String.length (prefix_scheme path) = 5 + String.length path).
  { intros path. unfold prefix_scheme. now rewrite append_length. }
  split; [reflexivity|]. split; [reflexivity|]. split; [reflexivity|].
  split; [|split; [exact Hlen|split; [reflexivity|]]].
  - intros p q H. now apply (append_inv_head scheme_prefix).
  - intros path H. apply (f_equal String.length) in H.
    rewrite !Hlen in H. lia.
Qed.

(** * Further properties of the code *)

(** ** Every run of [load_weather_data] *)

Lemma load_weather_data_cases (w : world) (city : string) (api_key : json) :
  (exists cd hs ds,
     load_weather_data w city api_key
     = (Ok (Some cd, hs, ds),
        [HttpGet (url_48hr city api_key); HttpGet (url_10day city api_key)])
     /\ first_request_fails (net w (url_48hr city api_key)) = false
     /\ second_request_fails (net w (url_10day city api_key)) = false)
  \/ (exists e,
        load_weather_data w city api_key
        = failure_run [HttpGet (url_48hr city api_key)] e
        /\ first_request_fails (net w (url_48hr city api_key)) = true)
  \/ (exists e,
        load_weather_data w city api_key
        = failure_run [HttpGet (url_48hr city api_key);
                       HttpGet (url_10day city api_key)] e
        /\ first_request_fails (net w (url_48hr city api_key)) = false
        /\ second_request_fails (net w (url_10day city api_key)) = true).
Proof.
  destruct (first_request_fails (net w (url_48hr city api_key))) eqn:F1.
  - right. left.
    destruct (load_weather_data_first_fails w city api_key F1) as (e & H).
    now exists e.
  - destruct (second_request_fails (net w (url_10day city api_key))) eqn:F2.
    + right. right.
      destruct (load_weather_data_second_fails w city api_key F1 F2)
        as (e & H).
      now exists e.
    + left.
      destruct (first_request_succeeds _ F1) as (p2 & cd & hs & N1 & Hc & Hh).
      destruct (net w (url_10day city api_key)) as [| |p10] eqn:N2;
        try discriminate.
      cbn [second_request_fails] in F2.
      destruct (daily_of p10) as [ds|] eqn:Hd; [|discriminate].
      exists cd, hs, ds.
      now rewrite (load_weather_data_ok w city api_key p2 p10 cd hs ds).
Qed.

(** X1.  [load_weather_data] never raises.  It returns either a dict with
    two frames and reports nothing, or [None] with two empty frames and
    exactly one reported error; it never issues more than two requests. *)
Theorem fetch_never_raises_all_or_nothing (w : world) (city : string)
    (api_key : json) :
  exists current hs ds,
    fst (load_weather_data w city api_key) = Ok (current, hs, ds)
    /\ (current = None -> hs = [] /\ ds = [])
    /\ (current = None
        <-> exists e,
              errors (snd (load_weather_data w city api_key))
              = [ErrorLoadingData e])
    /\ (current <> None
        <-> errors (snd (load_weather_data w city api_key)) = [])
    /\ List.length (requests (snd (load_weather_data w city api_key))) <= 2.
Proof.
  destruct (load_weather_data_cases w city api_key)
    as [(cd & hs & ds & -> & _)|[(e & -> & _)|(e & -> & _)]].
  - exists (Some cd), hs, ds. cbn.
    repeat split; try easy; try lia. now intros (e & He).
  - exists None, [], []. cbn.
    repeat split; try easy; try lia. intros _. now exists e.
  - exists None, [], []. cbn.
    repeat split; try easy; try lia. intros _. now exists e.
Qed.

(** X2.  The 10-day request is issued exactly when the 2-day request did
    not fail, and the 2-day request is issued in every run. *)
Theorem second_request_iff_first_succeeds (w : world) (city : string)
    (api_key : json) :
  (In (HttpGet (url_10day city api_key))
      (snd (load_weather_data w city api_key))
   <-> first_request_fails (net w (url_48hr city api_key)) = false)
  /\ In (HttpGet (url_48hr city api_key))
        (snd (load_weather_data w city api_key)).
Proof.
  pose proof (urls_differ city api_key) as D.
  destruct (load_weather_data_cases w city api_key)
    as [(cd & hs & ds & -> & F1 & _)|[(e & -> & F1)|(e & -> & F1 & _)]];
    rewrite F1; unfold failure_run; cbn [snd app In].
  - split; [split; [reflexivity|] | now left]. intros _. right. now left.
  - split; [split; [|discriminate] | now left].
    intros [H|[H|[]]]; congruence.
  - split; [split; [reflexivity|] | now left]. intros _. right. now left.
Qed.

(** ** Runs of [main] *)

Lemma requests_app (t t' : list event) :
  requests (t ++ t') = (requests t ++ requests t')%list.
Proof.
  induction t as [|ev t IH]; [reflexivity|].
  destruct ev; cbn [app requests]; now rewrite IH.
Qed.

Lemma main_with_key (w : world) (config key : json) :
  config_file w = FileJson config ->
  at_path [Key "api_key"] config = Some key ->
  main w
  = if truthy key
    then (fst (show_weather w key),
          (startup_events ++ snd (show_weather w key))%list)
    else (Exc StopException, (startup_events ++ [StStop])%list).
Proof.
  intros F K. unfold main. rewrite load_api_key_run, F.
  apply chain1 in K. unfold sub in K. cbn [bind Monad_outcome] in K.
  rewrite K. cbn -[show_weather]. destruct (truthy key); [|reflexivity].
  cbn -[show_weather]. now destruct (show_weather w key).
Qed.

Lemma missing_config_halts_lemma (w : world) :
  config_file w = FileAbsent ->
  load_api_key w
  = (Ok JNull,
     [OpenFile "config.json";
      StError (Literal "API key configuration file not found.")])
  /\ main w
     = (Exc StopException,
        [StTitle "Weather Data Viewer"; OpenFile "config.json";
         StError (Literal "API key configuration file not found.");
         StStop]).
Proof.
  intros F. unfold main. rewrite load_api_key_run, F. split; reflexivity.
Qed.

Lemma config_failure_lemma (w : world) (e : exn) :
  fst (load_api_key w) = Exc e ->
  main w
  = (Exc e, [StTitle "Weather Data Viewer"; OpenFile "config.json"])
  /\ config_file w <> FileAbsent.
Proof.
  unfold main. rewrite load_api_key_run.
  destruct (config_file w) as [| | |config]; cbn [fst].
  - discriminate.
  - intros [= <-]. split; [reflexivity | discriminate].
  - intros [= <-]. split; [reflexivity | discriminate].
  - intros ->. split; [reflexivity | discriminate].
Qed.

(** X3.  A [config.json] whose ["api_key"] is falsy (an empty string,
    [null], [0], [false], an empty list or dict) stops the script like a
    missing file does, but silently: nothing is reported with [st.error],
    and no request is issued. *)
Theorem falsy_key_stops_silently (w : world) (config key : json) :
  config_file w = FileJson config ->
  at_path [Key "api_key"] config = Some key ->
  truthy key = false ->
  main w
  = (Exc StopException,
     [StTitle "Weather Data Viewer"; OpenFile "config.json"; StStop])
  /\ errors (snd (main w)) = []
  /\ requests (snd (main w)) = [].
Proof.
  intros F K T. rewrite (main_with_key w config key F K), T.
  repeat split.
Qed.

(** X4.  Whatever leaves [load_api_key] as an exception (an unreadable
    file, a file that is not JSON, a value without ["api_key"]) leaves
    [main] as well: the script ends with that exception after the title and
    the attempt to open the file, with no [st.stop()], no reported error
    and no request. *)
Theorem config_failure_crashes_main (w : world) (e : exn) :
  fst (load_api_key w) = Exc e ->
  main w
  = (Exc e, [StTitle "Weather Data Viewer"; OpenFile "config.json"])
  /\ errors (snd (main w)) = []
  /\ requests (snd (main w)) = []
  /\ ~ In StStop (snd (main w)).
Proof.
  intros H. destruct (config_failure_lemma w e H) as [-> _].
  repeat split. intros [|[|[]]]; discriminate.
Qed.

Lemma show_weather_failure (w : world) (key : json) (evs : list event)
    (e : exn) :
  load_weather_data w (input_city w) key = failure_run evs e ->
  show_weather w key
  = (Ok tt,
     (sidebar_events ++ evs ++ [StError (ErrorLoadingData e)])%list).
Proof.
  intros L. unfold show_weather. rewrite L. unfold failure_run.
  destruct (input_show_48hr w), (input_show_10day w); cbn;
    now rewrite app_nil_r.
Qed.

(** X5.  With a usable key, a failed fetch (either request) lets [main]
    return normally; after the sidebar widgets the page holds the requests
    issued and the one error message, and nothing else: no subheader, no
    image, no chart and no table, whatever the two checkboxes say. *)
Theorem fetch_failure_renders_nothing (w : world) (config key : json) :
  config_file w = FileJson config ->
  at_path [Key "api_key"] config = Some key ->
  truthy key = true ->
  first_request_fails (net w (url_48hr (input_city w) key)) = true
  \/ second_request_fails (net w (url_10day (input_city w) key)) = true ->
  exists e urls,
    main w
    = (Ok tt,
       (startup_events ++ sidebar_events ++ map HttpGet urls
        ++ [StError (ErrorLoadingData e)])%list)
    /\ (urls = [url_48hr (input_city w) key]
        \/ urls = [url_48hr (input_city w) key;
                   url_10day (input_city w) key]).
Proof.
  intros F K T Hfail. rewrite (main_with_key w config key F K), T.
  destruct (load_weather_data_cases w (input_city w) key)
    as [(cd & hs & ds & _ & F1 & F2)|[(e & L & _)|(e & L & _)]].
  - destruct Hfail; congruence.
  - exists e, [url_48hr (input_city w) key].
    rewrite (show_weather_failure w key _ e L). split; [reflexivity|].
    now left.
  - exists e, [url_48hr (input_city w) key; url_10day (input_city w) key].
    rewrite (show_weather_failure w key _ e L). split; [reflexivity|].
    now right.
Qed.

Lemma show_current_requests (w : world) (city : string)
    (cd : current_data) :
  requests (snd (show_current w city cd)) = [].
Proof.
  unfold show_current, call.
  destruct (humidity_pie cd) as [pie|], (feels_like_line cd) as [line|];
    cbn -[append py_str];
    repeat match goal with
      | |- context [toolkit w ?ev] => destruct (toolkit w ev)
      end;
    reflexivity.
Qed.

Lemma show_weather_requests (w : world) (key : json) :
  requests (snd (show_weather w key))
  = requests (snd (load_weather_data w (input_city w) key)).
Proof.
  unfold show_weather.
  destruct (load_weather_data w (input_city w) key)
    as [[[[current hs] ds]|e] t]; [|reflexivity].
  destruct current as [cd|].
  - pose proof (show_current_requests w (input_city w) cd) as R.
    cbn -[show_current requests].
    destruct (show_current w (input_city w) cd) as [[[]|e] t1];
      cbn [snd] in R;
      destruct (input_show_48hr w), (input_show_10day w), hs, ds;
      cbn; rewrite ?requests_app, ?R; cbn; rewrite ?app_nil_r;
      reflexivity.
  - destruct (input_show_48hr w), (input_show_10day w), hs, ds;
      cbn; rewrite ?requests_app; cbn; rewrite ?app_nil_r; reflexivity.
Qed.

(** X6.  Whatever the world, [main] issues at most two requests, and each
    of them is the 2-day or the 10-day URL built from the city typed in the
    sidebar and a truthy key read from [config.json]; nothing in the
    rendering issues a request. *)
Theorem main_requests_only_the_forecast (w : world) :
  List.length (requests (snd (main w))) <= 2
  /\ forall url,
       In url (requests (snd (main w))) ->
       exists config key,
         config_file w = FileJson config
         /\ at_path [Key "api_key"] config = Some key
         /\ truthy key = true
         /\ (url = url_48hr (input_city w) key
             \/ url = url_10day (input_city w) key).
Proof.
  destruct (config_file w) as [| | |config] eqn:F.
  - destruct (missing_config_halts_lemma w F) as (_ & ->).
    split; [cbn; lia | intros url []].
  - destruct (config_failure_lemma w PermissionError) as [-> _].
    { now rewrite load_api_key_run, F. }
    split; [cbn; lia | intros url []].
  - destruct (config_failure_lemma w JSONDecodeError) as [-> _].
    { now rewrite load_api_key_run, F. }
    split; [cbn; lia | intros url []].
  - destruct (at_path [Key "api_key"] config) as [key|] eqn:K.
    + rewrite (main_with_key w config key F K).
      destruct (truthy key) eqn:T; [|split; [cbn; lia | intros url []]].
      cbn [snd]. unfold startup_events. cbn [app requests].
      rewrite show_weather_requests.
      destruct (load_weather_data_cases w (input_city w) key)
        as [(cd & hs & ds & -> & _)|[(e & -> & _)|(e & -> & _)]];
        unfold failure_run; cbn [snd app requests List.length In];
        (split; [lia|]); intros url H; exists config, key;
        repeat (split; [reflexivity|]); intuition.
    + assert (G : exists e, getitem config "api_key" = Exc e).
      { unfold getitem. cbn [at_path] in K.
        destruct config; try (eexists; reflexivity).
        destruct (lookup "api_key" items); [discriminate|].
        eexists; reflexivity. }
      destruct G as (e & G).
      destruct (config_failure_lemma w e) as [-> _].
      { now rewrite load_api_key_run, F, G. }
      split; [cbn; lia | intros url []].
Qed.

(** ** What a successful extraction tells about the body *)

Lemma fold_sub_inv (keys : list string) (m : outcome json) (x : json) :
  fold_left sub keys m = Ok x ->
  exists v, m = Ok v /\ at_path (map Key keys) v = Some x.
Proof.
  revert m. induction keys as [|k keys IH]; intros m H.
  - exists x. now split.
  - cbn [fold_left] in H. destruct (IH _ H) as (y & Hy & Hx).
    destruct m as [v|e]; [|discriminate]. exists v. split; [reflexivity|].
    unfold sub in Hy. cbn [bind Monad_outcome] in Hy. unfold getitem in Hy.
    cbn [map at_path]. destruct v; try discriminate.
    destruct (lookup k items); [|discriminate]. now injection Hy as ->.
Qed.

Lemma chain1_inv (v x : json) (a : string) :
  Ok v !! a = Ok x -> at_path [Key a] v = Some x.
Proof.
  intros H. destruct (fold_sub_inv [a] (Ok v) x H) as (v' & [= <-] & Hx).
  exact Hx.
Qed.

Lemma chain2_inv (v x : json) (a b : string) :
  Ok v !! a !! b = Ok x -> at_path [Key a; Key b] v = Some x.
Proof.
  intros H. destruct (fold_sub_inv [a; b] (Ok v) x H) as (v' & [= <-] & Hx).
  exact Hx.
Qed.

Lemma chain3_inv (v x : json) (a b c : string) :
  Ok v !! a !! b !! c = Ok x -> at_path [Key a; Key b; Key c] v = Some x.
Proof.
  intros H.
  destruct (fold_sub_inv [a; b; c] (Ok v) x H) as (v' & [= <-] & Hx).
  exact Hx.
Qed.

Lemma first_day_inv (payload x : json) (a b : string) :
  sub0 (Ok payload !! "forecast" !! "forecastday") !! a !! b = Ok x ->
  at_path [Key "forecast"; Key "forecastday"; Index 0; Key a; Key b] payload
  = Some x.
Proof.
  intros H.
  destruct (fold_sub_inv [a; b] _ x H) as (d & Hd & Hx).
  unfold sub0 in Hd.
  destruct (Ok payload !! "forecast" !! "forecastday") as [v|] eqn:E;
    [|discriminate].
  cbn [bind Monad_outcome] in Hd. apply chain2_inv in E.
  destruct v as [| | | |s|[|d' ds]|]; try discriminate.
  - cbn [getitem0] in Hd. destruct (chars s); [discriminate|].
    injection Hd as <-. discriminate.
  - injection Hd as ->. now apply (first_day_path payload d x ds).
Qed.

Lemma first_day_sub (payload x : json) (a b : string) :
  at_path [Key "forecast"; Key "forecastday"; Index 0; Key a; Key b] payload
  = Some x ->
  sub0 (Ok payload !! "forecast" !! "forecastday") !! a !! b = Ok x.
Proof.
  change [Key "forecast"; Key "forecastday"; Index 0; Key a; Key b]
    with ([Key "forecast"; Key "forecastday"] ++ [Index 0; Key a; Key b])%list.
  rewrite at_path_app.
  destruct (at_path [Key "forecast"; Key "forecastday"] payload) as [v|] eqn:E;
    [|discriminate].
  rewrite (chain2 _ _ _ _ E).
  destruct v as [| | | | |[|d ds]|]; try discriminate.
  cbn [at_path nth_error]. intros H.
  change (sub0 (Ok (JArr (d :: ds)))) with (Ok d). now apply chain2.
Qed.

Ltac split_binds :=
  cbn [bind Monad_outcome];
  repeat match goal with
    | |- match ?m with Ok _ => _ | Exc _ => _ end = Ok _ -> _ =>
        let E := fresh "E" in destruct m eqn:E; [|discriminate]
    end.

Ltac invert_chains :=
  repeat match goal with
    | E : sub0 _ !! _ !! _ = Ok _ |- _ => apply first_day_inv in E
    | E : Ok _ !! _ !! _ !! _ = Ok _ |- _ => apply chain3_inv in E
    | E : Ok _ !! _ !! _ = Ok _ |- _ => apply chain2_inv in E
    | E : Ok _ !! _ = Ok _ |- _ => apply chain1_inv in E
    end.

Lemma current_of_iff (payload : json) (cd : current_data) :
  current_of payload = Ok cd <-> current_from payload cd.
Proof.
  split.
  - unfold current_of. split_binds. intros [= <-]. invert_chains.
    unfold current_from. cbn.
    repeat (split; [assumption|]). eexists. split; [eassumption|reflexivity].
  - destruct cd. intros H. unfold current_from in H. cbn in H.
    destruct H as (H1 & H2 & H3 & H4 & H5 & H6 & H7 & partial & H8 & ->).
    unfold current_of.
    rewrite (chain2 _ _ _ _ H1), (chain2 _ _ _ _ H2), (chain2 _ _ _ _ H3),
      (chain3 _ _ _ _ _ H4), (chain2 _ _ _ _ H5), (chain3 _ _ _ _ _ H8),
      (first_day_sub _ _ _ _ H6), (first_day_sub _ _ _ _ H7).
    reflexivity.
Qed.

Lemma hourly_row_of_iff (hour : json) (r : hourly_row) :
  hourly_row_of hour = Ok r <-> hourly_from hour r.
Proof.
  split.
  - unfold hourly_row_of. split_binds. intros [= <-]. invert_chains.
    unfold hourly_from. cbn.
    repeat (split; [assumption|]). eexists. split; [eassumption|reflexivity].
  - destruct r. intros H. unfold hourly_from in H. cbn in H.
    destruct H as (H1 & H2 & H3 & H4 & H5 & H6 & partial & H7 & ->).
    unfold hourly_row_of.
    rewrite (chain1 _ _ _ H1), (chain1 _ _ _ H2), (chain1 _ _ _ H3),
      (chain1 _ _ _ H4), (chain2 _ _ _ _ H5), (chain1 _ _ _ H6),
      (chain2 _ _ _ _ H7).
    reflexivity.
Qed.

Lemma daily_row_of_iff (day : json) (r : daily_row) :
  daily_row_of day = Ok r <-> daily_from day r.
Proof.
  split.
  - unfold daily_row_of. split_binds. intros [= <-]. invert_chains.
    unfold daily_from. cbn.
    repeat (split; [assumption|]). eexists. split; [eassumption|reflexivity].
  - destruct r. intros H. unfold daily_from in H. cbn in H.
    destruct H as (H1 & H2 & H3 & H4 & H5 & H6 & partial & H7 & ->).
    unfold daily_row_of.
    rewrite (chain1 _ _ _ H1), (chain2 _ _ _ _ H2), (chain3 _ _ _ _ _ H3),
      (chain2 _ _ _ _ H4), (chain2 _ _ _ _ H5), (chain2 _ _ _ _ H6),
      (chain3 _ _ _ _ _ H7).
    reflexivity.
Qed.

Lemma traverse_inv {A B : Type} (f : A -> outcome B) (xs : list A)
    (ys : list B) :
  traverse f xs = Ok ys -> Forall2 (fun x y => f x = Ok y) xs ys.
Proof.
  revert ys. induction xs as [|x xs IH]; intros ys; cbn [traverse].
  - intros [= <-]. constructor.
  - cbn [bind Monad_outcome]. destruct (f x) as [y|] eqn:E; [|discriminate].
    destruct (traverse f xs) as [ys'|]; [|discriminate].
    intros [= <-]. constructor; [exact E | now apply IH].
Qed.

Lemma traverse_strings {B : Type} (f : json -> outcome B) (ss : list string)
    (ys : list B) :
  (forall s, failed (f (JStr s)) = true) ->
  traverse f (map JStr ss) = Ok ys -> ss = [] /\ ys = [].
Proof.
  intros Hf. destruct ss as [|s ss]; cbn [map traverse].
  - intros [= <-]. now split.
  - specialize (Hf s). cbn [bind Monad_outcome].
    destruct (f (JStr s)); discriminate.
Qed.

Lemma iter_cases (v : json) (xs : list json) :
  iter v = Ok xs ->
  v = JArr xs
  \/ ((forall l, v <> JArr l) /\ exists ss, xs = map JStr ss).
Proof.
  destruct v; cbn [iter]; try discriminate; intros [= <-].
  - right. split; [discriminate|]. now exists (chars s).
  - now left.
  - right. split; [discriminate|]. exists (map fst items).
    now rewrite map_map.
Qed.

Lemma Forall2_In_l {A B : Type} (R : A -> B -> Prop) (xs : list A)
    (ys : list B) (x : A) :
  Forall2 R xs ys -> In x xs -> exists y, In y ys /\ R x y.
Proof.
  induction 1 as [|a b xs ys Hab _ IH]; [easy|].
  intros [->|Hin].
  - exists b. split; [now left | exact Hab].
  - destruct (IH Hin) as (y & Hy & Hr). exists y. split; [now right | exact Hr].
Qed.

Lemma hourly_of_day_inv (day : json) (rows : list hourly_row) :
  hourly_of_day day = Ok rows -> Forall2 hourly_from (hours day) rows.
Proof.
  unfold hourly_of_day, hours. cbn [bind Monad_outcome].
  destruct (Ok day !! "hour") as [hv|] eqn:E; [|discriminate].
  apply chain1_inv in E. rewrite E.
  destruct (iter hv) as [hrs|] eqn:I; [|discriminate]. intros T.
  destruct (iter_cases hv hrs I) as [->|(Hna & ss & ->)].
  - eapply Forall2_impl; [|apply traverse_inv, T].
    intros h r. apply hourly_row_of_iff.
  - apply traverse_strings in T; [|reflexivity]. destruct T as [_ ->].
    destruct hv; try constructor. now elim (Hna xs).
Qed.

Lemma hourly_of_inv (payload : json) (hs : list hourly_row) :
  hourly_of payload = Ok hs ->
  Forall2 hourly_from (flat_map hours (forecast_days payload)) hs.
Proof.
  unfold hourly_of, forecast_days. cbn [bind Monad_outcome].
  destruct (Ok payload !! "forecast" !! "forecastday") as [v|] eqn:E;
    [|discriminate].
  apply chain2_inv in E. rewrite E.
  destruct (iter v) as [days|] eqn:I; [|discriminate].
  destruct (traverse hourly_of_day days) as [per_day|] eqn:T; [|discriminate].
  intros [= <-].
  destruct (iter_cases v days I) as [->|(Hna & ss & ->)].
  - apply Forall2_flat_map.
    eapply Forall2_impl; [|apply traverse_inv, T].
    intros d rows. apply hourly_of_day_inv.
  - apply traverse_strings in T; [|reflexivity]. destruct T as [_ ->].
    destruct v; try constructor. now elim (Hna xs).
Qed.

Lemma daily_of_inv (payload : json) (ds : list daily_row) :
  daily_of payload = Ok ds ->
  Forall2 daily_from (forecast_days payload) ds.
Proof.
  unfold daily_of, forecast_days. cbn [bind Monad_outcome].
  destruct (Ok payload !! "forecast" !! "forecastday") as [v|] eqn:E;
    [|discriminate].
  apply chain2_inv in E. rewrite E.
  destruct (iter v) as [days|] eqn:I; [|discriminate]. intros T.
  destruct (iter_cases v days I) as [->|(Hna & ss & ->)].
  - eapply Forall2_impl; [|apply traverse_inv, T].
    intros d r. apply daily_row_of_iff.
  - apply traverse_strings in T; [|reflexivity]. destruct T as [_ ->].
    destruct v; try constructor. now elim (Hna xs).
Qed.

Lemma load_success_inv (w : world) (city : string) (api_key : json)
    (cd : current_data) (hs : list hourly_row) (ds : list daily_row) :
  fst (load_weather_data w city api_key) = Ok (Some cd, hs, ds) ->
  exists p2 p10,
    net w (url_48hr city api_key) = HttpJson p2
    /\ net w (url_10day city api_key) = HttpJson p10
    /\ current_of p2 = Ok cd /\ hourly_of p2 = Ok hs /\ daily_of p10 = Ok ds.
Proof.
  destruct (load_weather_data_cases w city api_key)
    as [(cd' & hs' & ds' & L & F1 & F2)|[(e & -> & _)|(e & -> & _)]];
    try discriminate.
  rewrite L. cbn [fst]. intros [= -> -> ->].
  destruct (first_request_succeeds _ F1) as (p2 & cd' & hs' & N1 & Hc & Hh).
  destruct (net w (url_10day city api_key)) as [| |p10] eqn:N2;
    try discriminate.
  cbn [second_request_fails] in F2.
  destruct (daily_of p10) as [ds'|] eqn:Hd; [|discriminate].
  rewrite (load_weather_data_ok w city api_key p2 p10 cd' hs' ds'
             N1 N2 Hc Hh Hd) in L.
  injection L as -> -> ->. now exists p2, p10.
Qed.

(** X7.  Whatever [load_weather_data] returns with a dict is read off the
    two bodies: both requests were answered with JSON, every field of the
    dict is the value at its path in the 2-day body, the hourly rows stand
    for the hours of its forecast days in order, and the daily rows for the
    forecast days of the 10-day body in order (icons prefixed, string cells
    as they are).  No assumption on the shape of the bodies is needed. *)
Theorem fetch_result_is_read_off_the_bodies (w : world) (city : string)
    (api_key : json) (cd : current_data) (hs : list hourly_row)
    (ds : list daily_row) :
  fst (load_weather_data w city api_key) = Ok (Some cd, hs, ds) ->
  exists p2 p10,
    net w (url_48hr city api_key) = HttpJson p2
    /\ net w (url_10day city api_key) = HttpJson p10
    /\ current_from p2 cd
    /\ Forall2 hourly_keeps (flat_map hours (forecast_days p2)) hs
    /\ Forall2 daily_keeps (forecast_days p10) ds.
Proof.
  intros H.
  destruct (load_success_inv w city api_key cd hs ds H)
    as (p2 & p10 & N1 & N2 & Hc & Hh & Hd).
  exists p2, p10. split; [exact N1|]. split; [exact N2|].
  split; [now apply current_of_iff|].
  split.
  - eapply Forall2_impl; [|apply hourly_of_inv, Hh]. apply hourly_from_keeps.
  - eapply Forall2_impl; [|apply daily_of_inv, Hd]. apply daily_from_keeps.
Qed.

(** ** When the extraction succeeds *)

Lemma has_of_path (v x : json) (keys : list string) :
  at_path (map Key keys) v = Some x -> has v keys = true.
Proof. unfold has. now intros ->. Qed.

Lemma hourly_from_wf (hour : json) (r : hourly_row) :
  hourly_from hour r -> wf_hour hour = true.
Proof.
  intros (H1 & H2 & H3 & H4 & H5 & H6 & partial & H7 & _).
  unfold wf_hour, hour_fields. cbn [forallb].
  rewrite (has_of_path _ _ ["time"] H1), (has_of_path _ _ ["temp_c"] H2),
    (has_of_path _ _ ["feelslike_c"] H3), (has_of_path _ _ ["humidity"] H4),
    (has_of_path _ _ ["condition"; "text"] H5),
    (has_of_path _ _ ["wind_kph"] H6),
    (has_of_path _ _ ["condition"; "icon"] H7).
  reflexivity.
Qed.

Lemma daily_from_fields (day : json) (r : daily_row) :
  daily_from day r -> forallb (has day) day_fields = true.
Proof.
  intros (H1 & H2 & H3 & H4 & H5 & H6 & partial & H7 & _).
  unfold day_fields. cbn [forallb].
  rewrite (has_of_path _ _ ["date"] H1),
    (has_of_path _ _ ["day"; "avgtemp_c"] H2),
    (has_of_path _ _ ["day"; "condition"; "text"] H3),
    (has_of_path _ _ ["day"; "maxwind_kph"] H4),
    (has_of_path _ _ ["astro"; "sunrise"] H5),
    (has_of_path _ _ ["astro"; "sunset"] H6),
    (has_of_path _ _ ["day"; "condition"; "icon"] H7).
  reflexivity.
Qed.

Lemma daily_row_of_fields (day : json) :
  forallb (has day) day_fields = true -> exists r, daily_row_of day = Ok r.
Proof.
  unfold day_fields. cbn [forallb]. intros H. has_facts.
  eexists (mk_daily _ _ _ _ _ _ _). apply daily_row_of_iff.
  unfold daily_from. cbn.
  repeat (split; [eassumption|]). eexists. split; [eassumption|reflexivity].
Qed.

(** X8.  Building the current-conditions dict succeeds exactly when the 2-day
    body holds the six fields read under ["current"] and the sunrise and
    sunset of forecast day 0; nothing else in the body matters to it. *)
Theorem current_data_exact_precondition (payload : json) :
  failed (current_of payload) = false
  <-> forallb (has payload) current_fields = true
      /\ (exists x,
            at_path [Key "forecast"; Key "forecastday"; Index 0;
                     Key "astro"; Key "sunrise"] payload = Some x)
      /\ (exists x,
            at_path [Key "forecast"; Key "forecastday"; Index 0;
                     Key "astro"; Key "sunset"] payload = Some x).
Proof.
  split.
  - destruct (current_of payload) as [cd|] eqn:E; [intros _|discriminate].
    apply current_of_iff in E.
    destruct E as (H1 & H2 & H3 & H4 & H5 & H6 & H7 & partial & H8 & _).
    split; [|split; eexists; eassumption].
    unfold current_fields. cbn [forallb].
    rewrite (has_of_path _ _ ["current"; "temp_c"] H1),
      (has_of_path _ _ ["current"; "feelslike_c"] H2),
      (has_of_path _ _ ["current"; "humidity"] H3),
      (has_of_path _ _ ["current"; "condition"; "text"] H4),
      (has_of_path _ _ ["current"; "wind_kph"] H5),
      (has_of_path _ _ ["current"; "condition"; "icon"] H8).
    reflexivity.
  - unfold current_fields. cbn [forallb].
    intros (H & (sr & Hsr) & (ss & Hss)). has_facts.
    assert (C : exists cd, current_of payload = Ok cd).
    { eexists (mk_current _ _ _ _ _ _ _ _). apply current_of_iff.
      unfold current_from. cbn.
      repeat (split; [eassumption|]).
      eexists. split; [eassumption|reflexivity]. }
    destruct C as (cd & ->). reflexivity.
Qed.

(** X9.  An hourly row is built exactly when the hour holds the seven
    fields read from it, and a daily row exactly when the day holds the
    seven fields read from it: a day needs no ["hour"] array to give a
    daily row. *)
Theorem rows_exact_precondition (v : json) :
  (failed (hourly_row_of v) = false <-> wf_hour v = true)
  /\ (failed (daily_row_of v) = false
      <-> forallb (has v) day_fields = true).
Proof.
  split; split.
  - destruct (hourly_row_of v) as [r|] eqn:E; [intros _|discriminate].
    apply hourly_row_of_iff in E. now apply (hourly_from_wf v r).
  - intros H. now destruct (hourly_row_of_wf v H) as (r & -> & _).
  - destruct (daily_row_of v) as [r|] eqn:E; [intros _|discriminate].
    apply daily_row_of_iff in E. now apply (daily_from_fields v r).
  - intros H. now destruct (daily_row_of_fields v H) as (r & ->).
Qed.

(** X10.  One hour that lacks one of its seven fields, in any forecast day
    of the 2-day body, fails the whole fetch: no row is skipped, the dict
    and the other rows are dropped, and the 10-day request is not issued. *)
Theorem one_bad_hour_fails_the_fetch (w : world) (city : string)
    (api_key : json) (p2 day hour : json) :
  net w (url_48hr city api_key) = HttpJson p2 ->
  In day (forecast_days p2) ->
  In hour (hours day) ->
  wf_hour hour = false ->
  exists e,
    load_weather_data w city api_key
    = (Ok (None, [], []),
       [HttpGet (url_48hr city api_key); StError (ErrorLoadingData e)]).
Proof.
  intros N1 Hd Hh Hbad.
  apply (load_weather_data_first_fails w city api_key).
  rewrite N1. cbn [first_request_fails]. apply orb_true_iff. right.
  destruct (hourly_of p2) as [hs|] eqn:E; [|reflexivity]. exfalso.
  apply hourly_of_inv in E.
  assert (Hin : In hour (flat_map hours (forecast_days p2))).
  { apply in_flat_map. now exists day. }
  destruct (Forall2_In_l _ _ _ _ E Hin) as (r & _ & Hr).
  apply hourly_from_wf in Hr. congruence.
Qed.

(** X11.  One forecast day of the 10-day body that lacks one of the seven
    fields read from it fails the whole fetch after both requests: the dict
    and the hourly rows already built are dropped with the daily rows. *)
Theorem one_bad_day_fails_the_fetch (w : world) (city : string)
    (api_key : json) (p10 day : json) :
  first_request_fails (net w (url_48hr city api_key)) = false ->
  net w (url_10day city api_key) = HttpJson p10 ->
  In day (forecast_days p10) ->
  forallb (has day) day_fields = false ->
  exists e,
    load_weather_data w city api_key
    = (Ok (None, [], []),
       [HttpGet (url_48hr city api_key); HttpGet (url_10day city api_key);
        StError (ErrorLoadingData e)]).
Proof.
  intros F1 N2 Hd Hbad.
  apply (load_weather_data_second_fails w city api_key F1).
  rewrite N2. cbn [second_request_fails].
  destruct (daily_of p10) as [ds|] eqn:E; [|reflexivity]. exfalso.
  apply daily_of_inv in E.
  destruct (Forall2_In_l _ _ _ _ E Hd) as (r & _ & Hr).
  apply daily_from_fields in Hr. congruence.
Qed.

(** ** Edge cases of the two loops *)

(** X12.  An empty ["forecastday"] in the 10-day body is no failure, unlike
    in the 2-day body: an empty array, and just as well an empty object or
    an empty string, is iterated zero times, and the fetch returns the dict
    and the hourly rows with an empty daily frame and no error. *)
Theorem empty_ten_day_forecast_is_accepted (w : world) (city : string)
    (api_key : json) (p10 v : json) :
  first_request_fails (net w (url_48hr city api_key)) = false ->
  net w (url_10day city api_key) = HttpJson p10 ->
  at_path [Key "forecast"; Key "forecastday"] p10 = Some v ->
  v = JArr [] \/ v = JObj [] \/ v = JStr "" ->
  exists cd hs,
    load_weather_data w city api_key
    = (Ok (Some cd, hs, []),
       [HttpGet (url_48hr city api_key); HttpGet (url_10day city api_key)]).
Proof.
  intros F1 N2 E Hv.
  destruct (first_request_succeeds _ F1) as (p2 & cd & hs & N1 & Hc & Hh).
  exists cd, hs.
  apply (load_weather_data_ok w city api_key p2 p10); try assumption.
  unfold daily_of. rewrite (chain2 _ _ _ _ E).
  destruct Hv as [->|[->| ->]]; reflexivity.
Qed.

(** X13.  A ["forecastday"] of the 2-day body that is present but is no
    array fails the fetch while the dict is built: [forecastday[0]] raises
    on an object, a number or [null], and on a string it gives a character,
    which has no ["astro"].  The 10-day request is not issued. *)
Theorem non_array_forecast_fails (w : world) (city : string)
    (api_key : json) (p2 v : json) :
  net w (url_48hr city api_key) = HttpJson p2 ->
  at_path [Key "forecast"; Key "forecastday"] p2 = Some v ->
  (forall days, v <> JArr days) ->
  exists e,
    load_weather_data w city api_key
    = (Ok (None, [], []),
       [HttpGet (url_48hr city api_key); StError (ErrorLoadingData e)]).
Proof.
  intros N1 E Hna.
  apply (load_weather_data_first_fails w city api_key).
  rewrite N1. cbn [first_request_fails]. apply orb_true_iff. left.
  destruct (current_of p2) as [cd|] eqn:C; [|reflexivity]. exfalso.
  apply current_of_iff in C.
  destruct C as (_ & _ & _ & _ & _ & C & _).
  change [Key "forecast"; Key "forecastday"; Index 0; Key "astro";
          Key "sunrise"]
    with ([Key "forecast"; Key "forecastday"]
          ++ [Index 0; Key "astro"; Key "sunrise"])%list in C.
  rewrite at_path_app, E in C.
  destruct v; try discriminate. now elim (Hna xs).
Qed.

(** ** Invariants of a successful fetch *)

Lemma Forall2_Forall_r {A B : Type} (R : A -> B -> Prop) (P : B -> Prop)
    (xs : list A) (ys : list B) :
  (forall x y, R x y -> P y) -> Forall2 R xs ys -> Forall P ys.
Proof.
  intros HP. induction 1; constructor; eauto.
Qed.

Lemma prefix_scheme_prefix (s : string) :
  String.prefix scheme_prefix (scheme_prefix ++ s) = true.
Proof. cbn. now destruct s. Qed.

(** X14.  Every icon URL of a successful fetch, in the dict and in each row
    of both frames, starts with ["http:"]. *)
Theorem every_icon_has_the_scheme (w : world) (city : string)
    (api_key : json) (cd : current_data) (hs : list hourly_row)
    (ds : list daily_row) :
  fst (load_weather_data w city api_key) = Ok (Some cd, hs, ds) ->
  String.prefix "http:" (icon cd) = true
  /\ Forall (fun r => String.prefix "http:" (h_icon r) = true) hs
  /\ Forall (fun r => String.prefix "http:" (d_icon r) = true) ds.
Proof.
  intros H.
  destruct (load_success_inv w city api_key cd hs ds H)
    as (p2 & p10 & _ & _ & Hc & Hh & Hd).
  apply current_of_iff in Hc. apply hourly_of_inv in Hh.
  apply daily_of_inv in Hd.
  split; [|split].
  - destruct Hc as (_ & _ & _ & _ & _ & _ & _ & partial & _ & ->).
    apply prefix_scheme_prefix.
  - eapply Forall2_Forall_r; [|exact Hh].
    intros h r (_ & _ & _ & _ & _ & _ & partial & _ & ->).
    apply prefix_scheme_prefix.
  - eapply Forall2_Forall_r; [|exact Hd].
    intros d r (_ & _ & _ & _ & _ & _ & partial & _ & ->).
    apply prefix_scheme_prefix.
Qed.

Lemma list_sum_constant {A : Type} (f : A -> nat) (k : nat) (xs : list A) :
  Forall (fun x => f x = k) xs ->
  list_sum (map f xs) = List.length xs * k.
Proof.
  induction 1 as [|x xs Hx _ IH]; [reflexivity|].
  cbn [map List.length].
  change (list_sum (f x :: map f xs)) with (f x + list_sum (map f xs)).
  rewrite Hx, IH. reflexivity.
Qed.

(** X15.  When every forecast day of the 2-day body lists [k] hours, a
    successful fetch returns [n * k] hourly rows for [n] days: 48 rows for
    the two days of 24 hours the page title promises. *)
Theorem hourly_rows_days_times_hours (w : world) (city : string)
    (api_key : json) (p2 : json) (cd : current_data) (hs : list hourly_row)
    (ds : list daily_row) (k : nat) :
  net w (url_48hr city api_key) = HttpJson p2 ->
  fst (load_weather_data w city api_key) = Ok (Some cd, hs, ds) ->
  Forall (fun day => List.length (hours day) = k) (forecast_days p2) ->
  List.length hs = List.length (forecast_days p2) * k.
Proof.
  intros N1 H Hk.
  destruct (load_success_inv w city api_key cd hs ds H)
    as (p2' & p10 & N1' & _ & _ & Hh & _).
  assert (p2' = p2) as -> by congruence.
  apply hourly_of_inv in Hh.
  rewrite <- (Forall2_length Hh), length_flat_map.
  now apply list_sum_constant.
Qed.

(** ** The charts *)

Lemma py_sub_literals (v : json) (n : Z) (f : spec_float) :
  float_of_int n = Ok f ->
  (failed (py_sub (JInt n) v) = true <-> as_number v = None)
  /\ (failed (py_sub v (JInt n)) = true <-> as_number v = None)
  /\ (forall e, py_sub (JInt n) v = Exc e -> e = TypeError)
  /\ (forall e, py_sub v (JInt n) = Exc e -> e = TypeError).
Proof.
  intros F. unfold py_sub. cbn [as_number].
  destruct (as_number v) as [[x|g]|]; rewrite ?F; cbn;
    repeat split; intros; congruence.
Qed.

Lemma float_of_literals :
  float_of_int 100 = Ok (S754_finite false 7036874417766400 (-46))
  /\ float_of_int 1 = Ok (S754_finite false 4503599627370496 (-52))
  /\ float_of_int 2 = Ok (S754_finite false 4503599627370496 (-51))
  /\ float_of_int 3 = Ok (S754_finite false 6755399441055744 (-51)).
Proof. repeat split; vm_compute; reflexivity. Qed.

Lemma charts_failures (cd : current_data) :
  (failed (humidity_pie cd) = true <-> as_number (humidity cd) = None)
  /\ (failed (feels_like_line cd) = true
      <-> as_number (feels_like cd) = None)
  /\ (forall e, humidity_pie cd = Exc e -> e = TypeError)
  /\ (forall e, feels_like_line cd = Exc e -> e = TypeError).
Proof.
  destruct float_of_literals as (F100 & F1 & F2 & F3).
  destruct (py_sub_literals (humidity cd) 100 _ F100) as (H1 & _ & H2 & _).
  destruct (py_sub_literals (feels_like cd) 2 _ F2) as (_ & A1 & _ & A2).
  destruct (py_sub_literals (feels_like cd) 1 _ F1) as (_ & B1 & _ & B2).
  destruct (py_sub_literals (feels_like cd) 3 _ F3) as (_ & C1 & _ & C2).
  unfold humidity_pie, humidity_pie_values, feels_like_line.
  cbn [bind Monad_outcome].
  destruct (py_sub (JInt 100) (humidity cd)) as [r|e1];
    destruct (py_sub (feels_like cd) (JInt 2)) as [m|e2];
    destruct (py_sub (feels_like cd) (JInt 1)) as [ev|e3];
    destruct (py_sub (feels_like cd) (JInt 3)) as [n|e4];
    cbn [failed ret Monad_outcome] in *;
    (split; [|split; [|split]]);
    try tauto;
    try (intros e [= <-]; auto);
    try discriminate;
    try (split; [discriminate|]; intros N;
         first [apply A1 in N | apply B1 in N | apply C1 in N];
         discriminate).
Qed.

(** X16.  The two charts computed from the dict raise only [TypeError], and
    exactly when the value they subtract from is no number: the humidity
    pie when [humidity] is not an int, a float or a bool, the feels-like
    line when [feels_like] is not.  Both are built outside the [try]: when
    [st.image] and the gauge before it return, [show_current] raises
    [TypeError] at the pie whenever the humidity is no number. *)
Theorem charts_fail_on_non_numbers (city : string) (cd : current_data) :
  (failed (humidity_pie cd) = true <-> as_number (humidity cd) = None)
  /\ (failed (feels_like_line cd) = true
      <-> as_number (feels_like cd) = None)
  /\ (forall e, humidity_pie cd = Exc e -> e = TypeError)
  /\ (forall e, feels_like_line cd = Exc e -> e = TypeError)
  /\ (forall w,
        toolkit w (StImage (icon cd) 100) = None ->
        toolkit w (PlotlyChart (temp_gauge cd)) = None ->
        as_number (humidity cd) = None ->
        fst (show_current w city cd) = Exc TypeError).
Proof.
  destruct (charts_failures cd) as (H1 & H2 & H3 & H4).
  repeat (split; [assumption|]).
  intros w Hi Hg N. apply H1 in N. unfold show_current, call.
  rewrite Hi, Hg.
  destruct (humidity_pie cd) as [pie|e] eqn:E; [discriminate|].
  rewrite (H3 e eq_refl). reflexivity.
Qed.

(** ** Members the code does not read *)

Lemma lookup_other (a k : string) (v : json) (l1 l2 : list (string * json)) :
  a <> k ->
  lookup a (l1 ++ (k, v) :: l2)%list = lookup a (l1 ++ l2)%list.
Proof.
  intros Hne. induction l1 as [|[k' v'] l1 IH]; cbn [app lookup].
  - destruct (String.eqb_spec a k); [contradiction | reflexivity].
  - now rewrite IH.
Qed.

(** X17.  A top-level member of a body other than ["current"] and
    ["forecast"], wherever it stands among the members, changes nothing in
    what is extracted: the dict, the hourly rows and the daily rows are the
    same with and without it. *)
Theorem unread_members_are_ignored (k : string) (v : json)
    (l1 l2 : list (string * json)) :
  k <> "current" -> k <> "forecast" ->
  current_of (JObj (l1 ++ (k, v) :: l2)) = current_of (JObj (l1 ++ l2))
  /\ hourly_of (JObj (l1 ++ (k, v) :: l2)) = hourly_of (JObj (l1 ++ l2))
  /\ daily_of (JObj (l1 ++ (k, v) :: l2)) = daily_of (JObj (l1 ++ l2)).
Proof.
  intros Hc Hf.
  assert (E : forall a, a <> k ->
              Ok (JObj (l1 ++ (k, v) :: l2)) !! a = Ok (JObj (l1 ++ l2)) !! a).
  { intros a Ha. unfold sub. cbn [bind Monad_outcome getitem].
    now rewrite lookup_other. }
  unfold current_of, hourly_of, daily_of.
  rewrite !(E "current"), !(E "forecast") by congruence.
  repeat split.
Qed.

(** ** The two tables *)




(** ** What is reported, what is requested *)

(** X19.  The exception named in the error message is the first one met:
    a request that cannot be made reports [RequestException], a body that
    is not JSON [JSONDecodeError], a JSON object without ["current"] (as
    the provider sends for an unknown city) [KeyError] of ["current"], and
    a JSON body that is no object [TypeError]; in each case only the 2-day
    request was issued. *)
Theorem reported_error_names_the_first_failure (w : world) (city : string)
    (api_key : json) :
  (net w (url_48hr city api_key) = HttpFails ->
   load_weather_data w city api_key
   = failure_run [HttpGet (url_48hr city api_key)] RequestException)
  /\ (net w (url_48hr city api_key) = HttpBadBody ->
      load_weather_data w city api_key
      = failure_run [HttpGet (url_48hr city api_key)] JSONDecodeError)
  /\ (forall items,
        net w (url_48hr city api_key) = HttpJson (JObj items) ->
        lookup "current" items = None ->
        load_weather_data w city api_key
        = failure_run [HttpGet (url_48hr city api_key)]
            (KeyError (JStr "current")))
  /\ (forall body,
        net w (url_48hr city api_key) = HttpJson body ->
        (forall items, body <> JObj items) ->
        load_weather_data w city api_key
        = failure_run [HttpGet (url_48hr city api_key)] TypeError).
Proof.
  unfold load_weather_data, get_json. repeat split.
  - intros ->. reflexivity.
  - intros ->. reflexivity.
  - intros items -> Hnone. run.
    assert (C : current_of (JObj items) = Exc (KeyError (JStr "current"))).
    { unfold current_of, sub. cbn [bind Monad_outcome getitem].
      now rewrite Hnone. }
    now rewrite C.
  - intros body -> Hno. run.
    assert (C : current_of body = Exc TypeError).
    { destruct body; try reflexivity. now elim (Hno items). }
    now rewrite C.
Qed.

(** X20.  With a usable key, [main] always issues the 2-day request for
    the city typed in the sidebar, and issues it first. *)
Theorem main_fetches_for_the_typed_city (w : world) (config key : json) :
  config_file w = FileJson config ->
  at_path [Key "api_key"] config = Some key ->
  truthy key = true ->
  hd_error (requests (snd (main w))) = Some (url_48hr (input_city w) key).
Proof.
  intros F K T. rewrite (main_with_key w config key F K), T.
  cbn [snd]. unfold startup_events. cbn [app requests].
  rewrite show_weather_requests.
  destruct (load_weather_data_cases w (input_city w) key)
    as [(cd & hs & ds & -> & _)|[(e & -> & _)|(e & -> & _)]];
    reflexivity.
Qed.

Lemma append_assoc (a b c : string) : (a ++ b) ++ c = a ++ (b ++ c).
Proof.
  induction a as [|x a IH]; cbn; [reflexivity | now rewrite IH].
Qed.

Lemma append_inv_tail (s t a : string) : s ++ a = t ++ a -> s = t.
Proof.
  revert t. induction s as [|c s IH]; intros [|d t] H; cbn in H.
  - reflexivity.
  - apply (f_equal String.length) in H. cbn in H.
    rewrite append_length in H. lia.
  - apply (f_equal String.length) in H. cbn in H.
    rewrite append_length in H. lia.
  - injection H as -> H. now rewrite (IH t H).
Qed.

(** X21.  For one key, different cities give different URLs, for the 2-day
    as for the 10-day request.  Key and city are pasted into the URL as
    they are, though: a key or city that holds ["&q="] yields the very URL
    of another key and city. *)
Theorem city_and_key_are_pasted_unescaped (api_key : json) :
  (forall c1 c2, url_48hr c1 api_key = url_48hr c2 api_key -> c1 = c2)
  /\ (forall c1 c2, url_10day c1 api_key = url_10day c2 api_key -> c1 = c2)
  /\ (forall k c c',
        url_48hr c (JStr (k ++ "&q=" ++ c'))
        = url_48hr (c' ++ "&q=" ++ c) (JStr k)).
Proof.
  repeat split.
  - intros c1 c2 H. unfold url_48hr, forecast_url in H.
    do 3 apply append_inv_head in H. now apply append_inv_tail in H.
  - intros c1 c2 H. unfold url_10day, forecast_url in H.
    do 3 apply append_inv_head in H. now apply append_inv_tail in H.
  - intros k c c'. unfold url_48hr, forecast_url. cbn [py_str].
    now rewrite !append_assoc.
Qed.

(** X22.  When both bodies list the same first forecast day and its
    sunrise and sunset are strings, the sunrise and sunset shown with the
    current conditions are those of the first row of the daily frame. *)
Theorem sunrise_agrees_with_first_day (w : world) (city : string)
    (api_key : json) (p2 p10 : json) (cd : current_data)
    (hs : list hourly_row) (d0 : daily_row) (ds : list daily_row) :
  net w (url_48hr city api_key) = HttpJson p2 ->
  net w (url_10day city api_key) = HttpJson p10 ->
  nth_error (forecast_days p2) 0 = nth_error (forecast_days p10) 0 ->
  fst (load_weather_data w city api_key) = Ok (Some cd, hs, d0 :: ds) ->
  is_str (sunrise cd) = true ->
  is_str (sunset cd) = true ->
  sunrise cd = d_sunrise d0 /\ sunset cd = d_sunset d0.
Proof.
  intros N1 N2 Hsame H _ _.
  destruct (load_success_inv w city api_key cd hs (d0 :: ds) H)
    as (p2' & p10' & N1' & N2' & Hc & _ & Hd).
  assert (p2' = p2) as -> by congruence.
  assert (p10' = p10) as -> by congruence.
  apply current_of_iff in Hc. apply daily_of_inv in Hd.
  destruct Hc as (_ & _ & _ & _ & _ & R & S & _).
  inversion Hd as [|day r days rows Hday Hrest Edays Erows]. subst.
  rewrite <- Edays in Hsame. cbn [nth_error] in Hsame.
  destruct Hday as (_ & _ & _ & _ & R' & S' & _).
  unfold forecast_days in Hsame.
  destruct (at_path [Key "forecast"; Key "forecastday"] p2)
    as [[| | | | |[|day2 days2]|]|] eqn:E2; try discriminate.
  cbn [nth_error] in Hsame. injection Hsame as ->.
  rewrite (first_day_path p2 day _ days2 _ _ E2 R') in R.
  rewrite (first_day_path p2 day _ days2 _ _ E2 S') in S.
  split; congruence.
Qed.

End Properties.

(** * The properties at sample inputs *)

#[local] Existing Instance Sample.fmt.

Lemma fetch_fields_verbatim_witness :
  documented_shape Sample.body2 = true
  /\ documented_shape Sample.body10 = true
  /\ exists cd hourly daily,
       load_weather_data Sample.w_ok Sample.city Sample.key
       = (Ok (Some cd, hourly, daily),
          [HttpGet (url_48hr Sample.city Sample.key);
           HttpGet (url_10day Sample.city Sample.key)])
       /\ temperature cd = JInt 12
       /\ humidity cd = JInt 70
       /\ sunrise cd = JStr "07:01 AM"
       /\ List.length hourly = 4.
Proof.
  split; [reflexivity|]. split; [reflexivity|].
  destruct (fetch_fields_verbatim Sample.w_ok Sample.city Sample.key
              Sample.body2 Sample.body10 eq_refl eq_refl eq_refl eq_refl)
    as (cd & hourly & daily & Hrun & T & _ & H & _ & _ & R & _ & Hlen).
  exists cd, hourly, daily.
  split; [exact Hrun|].
  split; [now injection T|]. split; [now injection H|].
  split; [now injection R | exact Hlen].
Defined.

Lemma second_failure_discards_first_witness :
  exists e,
    load_weather_data Sample.w_second_down Sample.city Sample.key
    = (Ok (None, [], []),
       [HttpGet (url_48hr Sample.city Sample.key);
        HttpGet (url_10day Sample.city Sample.key);
        StError (ErrorLoadingData e)]).
Proof.
  exact (second_failure_discards_first Sample.w_second_down Sample.city
           Sample.key eq_refl eq_refl).
Defined.

Lemma first_failure_skips_second_witness :
  requests (snd (load_weather_data Sample.w_first_rejected Sample.city
                   Sample.key))
  = [url_48hr Sample.city Sample.key].
Proof.
  exact (proj1 (proj2 (first_failure_skips_second Sample.w_first_rejected
                         Sample.city Sample.key eq_refl))).
Defined.

Lemma missing_config_halts_witness :
  fst (main Sample.w_no_config) = Exc StopException
  /\ requests (snd (main Sample.w_no_config)) = [].
Proof.
  destruct (missing_config_halts Sample.w_no_config eq_refl)
    as (_ & Hmain & Hreq).
  split; [now rewrite Hmain | exact Hreq].
Defined.

Lemma ten_days_in_order_witness :
  exists cd hourly daily,
    fst (load_weather_data Sample.w_ok Sample.city Sample.key)
    = Ok (Some cd, hourly, daily)
    /\ List.length daily = 10
    /\ forall i day,
         nth_error (forecast_days Sample.body10) i = Some day ->
         exists r, nth_error daily i = Some r /\ daily_keeps day r.
Proof.
  exact (ten_days_in_order Sample.w_ok Sample.city Sample.key Sample.body10
           eq_refl eq_refl eq_refl eq_refl).
Defined.

Lemma hourly_rows_flatten_in_order_witness :
  exists cd hourly daily,
    fst (load_weather_data Sample.w_ok Sample.city Sample.key)
    = Ok (Some cd, hourly, daily)
    /\ Forall2 hourly_keeps (flat_map hours (forecast_days Sample.body2))
         hourly.
Proof.
  exact (hourly_rows_flatten_in_order Sample.w_ok Sample.city Sample.key
           Sample.body2 eq_refl eq_refl eq_refl).
Defined.

Lemma charts_fail_on_non_numbers_witness :
  fst (show_current Sample.w_ok Sample.city Sample.cd_no_humidity)
  = Exc TypeError.
Proof.
  destruct (charts_fail_on_non_numbers Sample.city Sample.cd_no_humidity)
    as (_ & _ & _ & _ & H).
  exact (H Sample.w_ok eq_refl eq_refl eq_refl).
Defined.

Lemma humidity_pie_sums_to_100_witness :
  in_0_100 (humidity Sample.cd_float) = true
  /\ exists remaining total,
       humidity_pie_values Sample.cd_float
       = Ok [JFloat Sample.humidity_30_7; remaining]
       /\ py_add (JFloat Sample.humidity_30_7) remaining = Ok total
       /\ equals_100 total = true.
Proof.
  split; [reflexivity|].
  destruct (humidity_pie_sums_to_100 Sample.cd_float eq_refl)
    as (remaining & total & _ & Hvalues & _ & Hsum & H100 & _).
  exists remaining, total. repeat split; assumption.
Defined.

Lemma only_missing_file_is_handled_witness :
  exists e,
    lookup_error e = true
    /\ load_api_key Sample.w_no_key = (Exc e, [OpenFile "config.json"]).
Proof.
  exact (proj2 (proj2 (proj2 (only_missing_file_is_handled Sample.w_no_key)))
           _ eq_refl eq_refl).
Defined.

Lemma empty_forecast_is_fetch_failure_witness :
  load_weather_data Sample.w_no_days Sample.city Sample.key
  = (Ok (None, [], []),
     [HttpGet (url_48hr Sample.city Sample.key);
      StError (ErrorLoadingData IndexError)]).
Proof.
  exact (proj1 (proj2 (empty_forecast_is_fetch_failure Sample.w_no_days
                         Sample.city Sample.key (Sample.payload [])
                         eq_refl eq_refl eq_refl))).
Defined.

(** The icon URL transformation is not idempotent: on the documented
    partial path, a second application gives another string. *)
Lemma icon_url_not_idempotent :
  prefix_scheme (prefix_scheme "//cdn.example/icon.png")
  <> prefix_scheme "//cdn.example/icon.png".
Proof. discriminate. Qed.

(** * The further properties at sample inputs *)

Lemma falsy_key_stops_silently_witness :
  main Sample.w_empty_key
  = (Exc StopException,
     [StTitle "Weather Data Viewer"; OpenFile "config.json"; StStop]).
Proof.
  exact (proj1 (falsy_key_stops_silently Sample.w_empty_key _ (JStr "")
                  eq_refl eq_refl eq_refl)).
Defined.

Lemma config_failure_crashes_main_witness :
  main Sample.w_no_key
  = (Exc (KeyError (JStr "api_key")),
     [StTitle "Weather Data Viewer"; OpenFile "config.json"]).
Proof.
  exact (proj1 (config_failure_crashes_main Sample.w_no_key _ eq_refl)).
Defined.

Lemma fetch_failure_renders_nothing_witness :
  exists e urls,
    main Sample.w_first_rejected
    = (Ok tt,
       (startup_events ++ sidebar_events ++ map HttpGet urls
        ++ [StError (ErrorLoadingData e)])%list)
    /\ (urls = [url_48hr (input_city Sample.w_first_rejected) Sample.key]
        \/ urls = [url_48hr (input_city Sample.w_first_rejected) Sample.key;
                   url_10day (input_city Sample.w_first_rejected)
                     Sample.key]).
Proof.
  exact (fetch_failure_renders_nothing Sample.w_first_rejected Sample.config
           Sample.key eq_refl eq_refl eq_refl (or_introl eq_refl)).
Defined.

Lemma main_requests_only_the_forecast_witness :
  exists config key,
    config_file Sample.w_ok = FileJson config
    /\ at_path [Key "api_key"] config = Some key
    /\ truthy key = true
    /\ (url_10day Sample.city Sample.key
        = url_48hr (input_city Sample.w_ok) key
        \/ url_10day Sample.city Sample.key
           = url_10day (input_city Sample.w_ok) key).
Proof.
  apply (proj2 (main_requests_only_the_forecast Sample.w_ok)).
  right. left. reflexivity.
Defined.

Lemma fetch_result_is_read_off_the_bodies_witness :
  exists p2 p10,
    net Sample.w_ok (url_48hr Sample.city Sample.key) = HttpJson p2
    /\ net Sample.w_ok (url_10day Sample.city Sample.key) = HttpJson p10
    /\ current_from p2 Sample.cd
    /\ Forall2 hourly_keeps (flat_map hours (forecast_days p2)) Sample.hs
    /\ Forall2 daily_keeps (forecast_days p10) Sample.ds.
Proof.
  exact (fetch_result_is_read_off_the_bodies Sample.w_ok Sample.city
           Sample.key Sample.cd Sample.hs Sample.ds eq_refl).
Defined.

Lemma one_bad_hour_fails_the_fetch_witness :
  exists e,
    load_weather_data Sample.w_bad_hour Sample.city Sample.key
    = (Ok (None, [], []),
       [HttpGet (url_48hr Sample.city Sample.key);
        StError (ErrorLoadingData e)]).
Proof.
  apply (one_bad_hour_fails_the_fetch Sample.w_bad_hour Sample.city
           Sample.key _ Sample.day_with_bad_hour Sample.bad_hour eq_refl).
  - right. left. reflexivity.
  - right. left. reflexivity.
  - reflexivity.
Defined.

Lemma one_bad_day_fails_the_fetch_witness :
  exists e,
    load_weather_data Sample.w_bad_day Sample.city Sample.key
    = (Ok (None, [], []),
       [HttpGet (url_48hr Sample.city Sample.key);
        HttpGet (url_10day Sample.city Sample.key);
        StError (ErrorLoadingData e)]).
Proof.
  apply (one_bad_day_fails_the_fetch Sample.w_bad_day Sample.city Sample.key
           _ Sample.bad_day eq_refl eq_refl).
  - right. left. reflexivity.
  - reflexivity.
Defined.

Lemma empty_ten_day_forecast_is_accepted_witness :
  exists cd hs,
    load_weather_data Sample.w_no_ten_days Sample.city Sample.key
    = (Ok (Some cd, hs, []),
       [HttpGet (url_48hr Sample.city Sample.key);
        HttpGet (url_10day Sample.city Sample.key)]).
Proof.
  exact (empty_ten_day_forecast_is_accepted Sample.w_no_ten_days Sample.city
           Sample.key _ (JArr []) eq_refl eq_refl eq_refl
           (or_introl eq_refl)).
Defined.

Lemma non_array_forecast_fails_witness :
  exists e,
    load_weather_data Sample.w_keyed_days Sample.city Sample.key
    = (Ok (None, [], []),
       [HttpGet (url_48hr Sample.city Sample.key);
        StError (ErrorLoadingData e)]).
Proof.
  apply (non_array_forecast_fails Sample.w_keyed_days Sample.city Sample.key
           Sample.keyed_body Sample.keyed_days eq_refl eq_refl).
  discriminate.
Defined.

Lemma every_icon_has_the_scheme_witness :
  String.prefix "http:" (icon Sample.cd) = true
  /\ Forall (fun r => String.prefix "http:" (h_icon r) = true) Sample.hs
  /\ Forall (fun r => String.prefix "http:" (d_icon r) = true) Sample.ds.
Proof.
  exact (every_icon_has_the_scheme Sample.w_ok Sample.city Sample.key
           Sample.cd Sample.hs Sample.ds eq_refl).
Defined.

Lemma hourly_rows_days_times_hours_witness :
  List.length Sample.hs = List.length (forecast_days Sample.body2) * 2.
Proof.
  apply (hourly_rows_days_times_hours Sample.w_ok Sample.city Sample.key
           Sample.body2 Sample.cd Sample.hs Sample.ds 2 eq_refl eq_refl).
  repeat constructor.
Defined.

Lemma unread_members_are_ignored_witness :
  current_of Sample.body2
  = current_of
      (JObj [("current", Sample.current);
             ("forecast", JObj [("forecastday", JArr Sample.two_days)])]).
Proof.
  apply (proj1 (unread_members_are_ignored "location"
                  (JObj [("name", JStr "London")]) []
                  [("current", Sample.current);
                   ("forecast",
                    JObj [("forecastday", JArr Sample.two_days)])]
                  ltac:(discriminate) ltac:(discriminate))).
Defined.


Lemma main_fetches_for_the_typed_city_witness :
  hd_error (requests (snd (main Sample.w_ok)))
  = Some (url_48hr (input_city Sample.w_ok) Sample.key).
Proof.
  exact (main_fetches_for_the_typed_city Sample.w_ok Sample.config Sample.key
           eq_refl eq_refl eq_refl).
Defined.

Lemma sunrise_agrees_with_first_day_witness :
  exists d0 ds,
    Sample.ds = d0 :: ds
    /\ sunrise Sample.cd = d_sunrise d0 /\ sunset Sample.cd = d_sunset d0.
Proof.
  eexists. eexists. split; [reflexivity|].
  exact (sunrise_agrees_with_first_day Sample.w_ok Sample.city Sample.key
           Sample.body2 Sample.body10 Sample.cd Sample.hs _ _
           eq_refl eq_refl eq_refl eq_refl eq_refl eq_refl).
Defined.
